(** * Personal Library Manager: the record store of [library_manager.py]

    A shallow embedding of the store kept in [st.session_state.library], of
    the file [library.txt] it is loaded from and saved to, and of the
    operations of the menu (add, remove, search, statistics, load, save),
    followed by the properties proved about them.

    Conventions of the embedding.
    - A Python [str] is a [string]: one character per code point, for the
      code points below 256.  [str.strip], [str.lower] and [str.isspace]
      are given for that range.
    - A Python object is a [value]: [None], [bool], [int], [str], [list]
      and [dict] with [str] keys, which is what [json.load] can build
      (floats apart, see [Json]).
    - The widgets of Streamlit are the arguments of each operation (the
      texts typed, the buttons pressed); what an operation displays is
      appended to the [page] of the state.
    - An operation that can raise returns a [result].
    - The interpreter is CPython 3.11 with its defaults: [int(s)] refuses
      a text of more than 4300 digits, and a call nested deeper than
      the recursion limit raises [RecursionError].  How much of that
      limit is left when [json.load] is called, and whether the file can
      be opened and read, are inputs of [Store.load_library]. *)

From Stdlib Require Import ZArith NArith List String Ascii Bool Lia PeanoNat.
From Stdlib Require Import DecimalString DecimalPos DecimalN DecimalZ DecimalFacts.
From Stdlib Require Import PrimFloat Uint63.
Import ListNotations.

Set Warnings "-register-all".
Local Open Scope list_scope.
Local Open Scope string_scope.

(** ** Characters and strings *)

Module PyStr.

Definition ord (c : ascii) : N := N_of_ascii c.

Definition chr (n : N) : ascii := ascii_of_N n.

(** [str.isspace] on one character: TAB..CR, FS..US, space, NEL, NBSP. *)
Definition isspace (c : ascii) : bool :=
  let n := ord c in
  (((9 <=? n) && (n <=? 13)) || ((28 <=? n) && (n <=? 32))
   || (n =? 133) || (n =? 160))%N.

(** [str.lower] on one character: A..Z and the capital letters of
    Latin-1 (all of 0xC0..0xDE but the multiplication sign 0xD7). *)
Definition lower_char (c : ascii) : ascii :=
  let n := ord c in
  if (((65 <=? n) && (n <=? 90))
      || ((192 <=? n) && (n <=? 222) && negb (n =? 215)))%N
  then chr (n + 32) else c.

Fixpoint lower (s : string) : string :=
  match s with
  | EmptyString => EmptyString
  | String c r => String (lower_char c) (lower r)
  end.

Fixpoint lstrip (s : string) : string :=
  match s with
  | EmptyString => EmptyString
  | String c r => if isspace c then lstrip r else s
  end.

Fixpoint rstrip (s : string) : string :=
  match s with
  | EmptyString => EmptyString
  | String c r =>
      match rstrip r with
      | EmptyString => if isspace c then EmptyString else String c EmptyString
      | r' => String c r'
      end
  end.

(** [s.strip()] *)
Definition strip (s : string) : string := rstrip (lstrip s).

(** The truth value of a [str]: non-empty. *)
Definition nonempty (s : string) : bool :=
  match s with EmptyString => false | String _ _ => true end.

Fixpoint startswith (p s : string) : bool :=
  match p with
  | EmptyString => true
  | String a p' =>
      match s with
      | EmptyString => false
      | String b s' => Ascii.eqb a b && startswith p' s'
      end
  end.

(** [needle in hay] on two [str]: [needle] starts at some position of
    [hay]. *)
Fixpoint contains (needle hay : string) : bool :=
  startswith needle hay
  || match hay with
     | EmptyString => false
     | String _ hay' => contains needle hay'
     end.

End PyStr.

(** ** Python objects *)

Module Py.

Inductive value : Type :=
| VNone
| VBool (b : bool)
| VInt (n : Z)
| VStr (s : string)
| VList (l : list value)
| VDict (d : list (string * value)).

(** Induction on a value, with the property at hand for the items of a
    list and for the values of a dict. *)
Section ValueInduction.

Variable P : value -> Prop.
Hypothesis P_none : P VNone.
Hypothesis P_bool : forall b, P (VBool b).
Hypothesis P_int : forall n, P (VInt n).
Hypothesis P_str : forall s, P (VStr s).
Hypothesis P_list : forall l, Forall P l -> P (VList l).
Hypothesis P_dict : forall d, Forall (fun kv => P (snd kv)) d -> P (VDict d).

Fixpoint value_induction (v : value) : P v :=
  match v with
  | VNone => P_none
  | VBool b => P_bool b
  | VInt n => P_int n
  | VStr s => P_str s
  | VList l =>
      P_list l
        ((fix items (l : list value) : Forall P l :=
            match l with
            | [] => Forall_nil P
            | x :: l' => Forall_cons x (value_induction x) (items l')
            end) l)
  | VDict d =>
      P_dict d
        ((fix items (d : list (string * value)) : Forall (fun kv => P (snd kv)) d :=
            match d with
            | [] => Forall_nil _
            | kv :: d' =>
                Forall_cons (P := fun kv => P (snd kv)) kv
                  (value_induction (snd kv)) (items d')
            end) d)
  end.

End ValueInduction.

(** Every [dict] inside [v] has pairwise distinct keys, as a [dict] of
    Python has. *)
Fixpoint distinct_keys (v : value) : Prop :=
  match v with
  | VList l =>
      (fix all (l : list value) : Prop :=
         match l with
         | [] => True
         | x :: l' => distinct_keys x /\ all l'
         end) l
  | VDict d =>
      NoDup (map fst d)
      /\ (fix all (d : list (string * value)) : Prop :=
            match d with
            | [] => True
            | (_, x) :: d' => distinct_keys x /\ all d'
            end) d
  | _ => True
  end.

(** The number of values inside [v], itself included. *)
Fixpoint size (v : value) : nat :=
  match v with
  | VList l =>
      S ((fix sum (l : list value) : nat :=
            match l with
            | [] => O
            | x :: l' => size x + sum l'
            end) l)
  | VDict d =>
      S ((fix sum (d : list (string * value)) : nat :=
            match d with
            | [] => O
            | (_, x) :: d' => size x + sum d'
            end) d)
  | _ => 1
  end.

(** The sums inside [size], by name. *)
Definition sum_sizes : list value -> nat :=
  fix sum (l : list value) : nat :=
    match l with
    | [] => O
    | x :: l' => size x + sum l'
    end.

Definition sum_member_sizes : list (string * value) -> nat :=
  fix sum (d : list (string * value)) : nat :=
    match d with
    | [] => O
    | (_, x) :: d' => size x + sum d'
    end.

(** How many lists and dicts stand one inside the other in [v]. *)
Fixpoint depth (v : value) : nat :=
  match v with
  | VList l =>
      S ((fix deepest (l : list value) : nat :=
            match l with
            | [] => O
            | x :: l' => Nat.max (depth x) (deepest l')
            end) l)
  | VDict d =>
      S ((fix deepest (d : list (string * value)) : nat :=
            match d with
            | [] => O
            | (_, x) :: d' => Nat.max (depth x) (deepest d')
            end) d)
  | _ => O
  end.

(** [sys.int_info.default_max_str_digits]: [int(s)] raises [ValueError]
    on a text of more digits. *)
Definition int_max_str_digits : N := 4300%N.

(** The decimal digits of [n], without its sign. *)
Definition int_digits (n : Z) : Decimal.uint :=
  match Z.to_int n with
  | Decimal.Pos u => u
  | Decimal.Neg u => u
  end.

(** [n] has no more digits than [int(s)] accepts. *)
Definition int_fits (n : Z) : bool :=
  (N.of_nat (Decimal.nb_digits (int_digits n)) <=? int_max_str_digits)%N.

(** Every [int] inside [v] does. *)
Fixpoint ints_fit (v : value) : bool :=
  match v with
  | VInt n => int_fits n
  | VList l =>
      (fix all (l : list value) : bool :=
         match l with
         | [] => true
         | x :: l' => ints_fit x && all l'
         end) l
  | VDict d =>
      (fix all (d : list (string * value)) : bool :=
         match d with
         | [] => true
         | (_, x) :: d' => ints_fit x && all d'
         end) d
  | _ => true
  end.

(** The exceptions that can leave an operation.  ([JSONDecodeError] and
    the errors of the write are caught where they arise, see
    [Store.load_library] and [Store.save_library].)  [OSError] stands
    for its subclasses too ([PermissionError], [IsADirectoryError]);
    [UnicodeDecodeError] is kept apart from [ValueError], its base. *)
Inductive exn : Type :=
| TypeError
| AttributeError
| KeyError
| ValueError
| ZeroDivisionError
| RecursionError
| OSError
| UnicodeDecodeError.

Inductive result (A : Type) : Type :=
| Ok (a : A)
| Raise (e : exn).

Arguments Ok {A} a.
Arguments Raise {A} e.

Definition bind {A B : Type} (r : result A) (k : A -> result B) : result B :=
  match r with
  | Ok a => k a
  | Raise e => Raise e
  end.

Notation "x <- r ;; k" := (bind r (fun x => k))
  (at level 61, r at next level, right associativity).

(** A [dict] keeps its keys in insertion order; a key is looked up by
    string equality. *)
Fixpoint dict_get (k : string) (d : list (string * value)) : option value :=
  match d with
  | [] => None
  | (k', v) :: d' => if String.eqb k k' then Some v else dict_get k d'
  end.

(** [d[k] = v]: a key already there keeps its place. *)
Fixpoint dict_set (k : string) (v : value) (d : list (string * value))
  : list (string * value) :=
  match d with
  | [] => [(k, v)]
  | (k', v') :: d' =>
      if String.eqb k k' then (k', v) :: d' else (k', v') :: dict_set k v d'
  end.

(** [bool(v)] *)
Definition truthy (v : value) : bool :=
  match v with
  | VNone => false
  | VBool b => b
  | VInt n => negb (n =? 0)%Z
  | VStr s => PyStr.nonempty s
  | VList l => match l with [] => false | _ :: _ => true end
  | VDict d => match d with [] => false | _ :: _ => true end
  end.

Definition int_of_bool (b : bool) : Z := if b then 1%Z else 0%Z.

(** [a == b].  A [bool] is the [int] 0 or 1; two lists are equal
    elementwise; two dicts are equal when they have as many keys and
    every key of the first has an equal value in the second. *)
Fixpoint py_eq (a b : value) {struct a} : bool :=
  match a, b with
  | VNone, VNone => true
  | VBool x, VBool y => Bool.eqb x y
  | VBool x, VInt y => (int_of_bool x =? y)%Z
  | VInt x, VBool y => (x =? int_of_bool y)%Z
  | VInt x, VInt y => (x =? y)%Z
  | VStr x, VStr y => String.eqb x y
  | VList xs, VList ys =>
      (fix all2 (xs ys : list value) {struct xs} : bool :=
         match xs, ys with
         | [], [] => true
         | x :: xs', y :: ys' => py_eq x y && all2 xs' ys'
         | _, _ => false
         end) xs ys
  | VDict d, VDict e =>
      (List.length d =? List.length e)%nat
      && (fix all_in (d : list (string * value)) {struct d} : bool :=
            match d with
            | [] => true
            | (k, x) :: d' =>
                match dict_get k e with
                | Some y => py_eq x y
                | None => false
                end && all_in d'
            end) d
  | _, _ => false
  end.

(** [o[k]] for a [str] key [k]. *)
Definition getitem (o : value) (k : string) : result value :=
  match o with
  | VDict d =>
      match dict_get k d with
      | Some v => Ok v
      | None => Raise KeyError
      end
  | _ => Raise TypeError
  end.

(** [v.lower()] *)
Definition str_lower (v : value) : result string :=
  match v with
  | VStr s => Ok (PyStr.lower s)
  | _ => Raise AttributeError
  end.

Fixpoint chars (s : string) : list value :=
  match s with
  | EmptyString => []
  | String c r => VStr (String c EmptyString) :: chars r
  end.

(** [for x in o]: the elements of a list, the characters of a [str],
    the keys of a [dict]. *)
Definition iter (o : value) : result (list value) :=
  match o with
  | VList l => Ok l
  | VStr s => Ok (chars s)
  | VDict d => Ok (map (fun kv => VStr (fst kv)) d)
  | _ => Raise TypeError
  end.

(** [for x in o[:]]: a copy of a list, a [str] itself; a [dict] does not
    take a slice for a key (TypeError; KeyError from Python 3.12 on). *)
Definition iter_copy (o : value) : result (list value) :=
  match o with
  | VList l => Ok l
  | VStr s => Ok (chars s)
  | _ => Raise TypeError
  end.

(** [len(o)] *)
Definition len (o : value) : result Z :=
  match o with
  | VList l => Ok (Z.of_nat (List.length l))
  | VStr s => Ok (Z.of_nat (String.length s))
  | VDict d => Ok (Z.of_nat (List.length d))
  | _ => Raise TypeError
  end.

(** [o.append(x)] *)
Definition append (o x : value) : result value :=
  match o with
  | VList l => Ok (VList (l ++ [x]))
  | _ => Raise AttributeError
  end.

(** [l.remove(x)] on a list: the first element equal to [x] goes. *)
Fixpoint list_remove (x : value) (l : list value) : result (list value) :=
  match l with
  | [] => Raise ValueError
  | y :: l' =>
      if py_eq y x then Ok l'
      else l'' <- list_remove x l' ;; Ok (y :: l'')
  end.

(** [o.remove(x)] *)
Definition remove (o x : value) : result value :=
  match o with
  | VList l => l' <- list_remove x l ;; Ok (VList l')
  | _ => Raise AttributeError
  end.

(** [str(n)] and [repr(n)] of an [int]: its decimal digits, with a
    minus sign when negative. *)
Definition repr_int (n : Z) : string := NilEmpty.string_of_int (Z.to_int n).

(** A number: an [int] or a binary64 [float]. *)
Inductive number : Type :=
| NumInt (n : Z)
| NumFloat (f : float).

(** [float(n)] for a count (below 2^53, where the conversion is exact). *)
Definition float_of_int (n : Z) : float := PrimFloat.of_uint63 (Uint63.of_Z n).

(** [a / b] on two [int]. *)
Definition truediv (a b : Z) : result float :=
  if (b =? 0)%Z then Raise ZeroDivisionError
  else Ok (PrimFloat.div (float_of_int a) (float_of_int b)).

End Py.

(** ** The [json] module: [json.dump(obj, fp, indent=4)] and [json.load]

    The encoder is the one of [json.dump] with its defaults but the
    indentation: ASCII output, a comma at the end of each item, a colon
    and a space after each key.  The decoder follows [json.loads]:
    blanks, literals, numbers, strings read strictly, arrays and
    objects.  A float literal, [NaN], the infinities and an escape of a
    code point above 255 have no [value] in the model: on a text that
    holds one the decoder answers [Beyond].  The two exceptions of the
    decoder that are no [JSONDecodeError] are modelled: the [ValueError]
    of [int] on more than 4300 digits, and the [RecursionError] of the
    scanner (the one of the [_json] accelerator), which enters one call
    for each array or object it opens. *)

Module Json.

Import Py.

Local Open Scope char_scope.

Definition dquote : ascii := "034".
Definition backslash : ascii := "\".
Definition newline : ascii := "010".

Definition hexdigit (n : N) : ascii :=
  if (n <? 10)%N then PyStr.chr (48 + n) else PyStr.chr (87 + n).

(** One character of a string, as [ensure_ascii] writes it. *)
Definition encode_char (c : ascii) : string :=
  if Ascii.eqb c dquote then String backslash (String dquote EmptyString)
  else if Ascii.eqb c backslash then String backslash (String backslash EmptyString)
  else if Ascii.eqb c "010" then String backslash (String "n" EmptyString)
  else if Ascii.eqb c "013" then String backslash (String "r" EmptyString)
  else if Ascii.eqb c "009" then String backslash (String "t" EmptyString)
  else if Ascii.eqb c "008" then String backslash (String "b" EmptyString)
  else if Ascii.eqb c "012" then String backslash (String "f" EmptyString)
  else
    let n := PyStr.ord c in
    if ((n <? 32) || (126 <? n))%N then
      String backslash (String "u" (String "0" (String "0"
        (String (hexdigit (n / 16)) (String (hexdigit (n mod 16)) EmptyString)))))
    else String c EmptyString.

Fixpoint escape (s : string) : string :=
  match s with
  | EmptyString => EmptyString
  | String c r => (encode_char c ++ escape r)%string
  end.

Definition encode_str (s : string) : string :=
  String dquote (escape s ++ String dquote EmptyString)%string.

Fixpoint spaces (n : nat) : string :=
  match n with
  | O => EmptyString
  | S n' => String " " (spaces n')
  end.

(** A line break and the indentation of nesting level [lvl]. *)
Definition newline_indent (lvl : nat) : string :=
  String newline (spaces (4 * lvl)).

Fixpoint dumps_at (lvl : nat) (v : value) {struct v} : string :=
  (match v with
   | VNone => "null"
   | VBool true => "true"
   | VBool false => "false"
   | VInt n => repr_int n
   | VStr s => encode_str s
   | VList [] => "[]"
   | VList (x :: xs) =>
       "[" ++ newline_indent (S lvl) ++ dumps_at (S lvl) x
       ++ (fix items (xs : list value) : string :=
             match xs with
             | [] => ""
             | y :: ys =>
                 "," ++ newline_indent (S lvl) ++ dumps_at (S lvl) y ++ items ys
             end) xs
       ++ newline_indent lvl ++ "]"
   | VDict [] => "{}"
   | VDict ((k, x) :: d) =>
       "{" ++ newline_indent (S lvl) ++ encode_str k ++ ": " ++ dumps_at (S lvl) x
       ++ (fix items (d : list (string * value)) : string :=
             match d with
             | [] => ""
             | (k', y) :: d' =>
                 "," ++ newline_indent (S lvl) ++ encode_str k' ++ ": "
                 ++ dumps_at (S lvl) y ++ items d'
             end) d
       ++ newline_indent lvl ++ "}"
   end)%string.

(** The items of an array after the first, and the members of an object
    after the first, as [dumps_at] writes them at level [lvl]. *)
Definition dump_items (lvl : nat) : list value -> string :=
  fix items (xs : list value) : string :=
    match xs with
    | [] => EmptyString
    | y :: ys =>
        ("," ++ newline_indent lvl ++ dumps_at lvl y ++ items ys)%string
    end.

Definition dump_members (lvl : nat) : list (string * value) -> string :=
  fix items (d : list (string * value)) : string :=
    match d with
    | [] => EmptyString
    | (k', y) :: d' =>
        ("," ++ newline_indent lvl ++ encode_str k' ++ ": "
         ++ dumps_at lvl y ++ items d')%string
    end.

(** [json.dumps(obj, indent=4)] *)
Definition dumps (v : value) : string := dumps_at 0 v.

(** What a scan of a text gives: a result and the text after it, a
    [JSONDecodeError], another exception, a text the model does not
    cover, or no answer for want of fuel. *)
Inductive scan (A : Type) : Type :=
| Got (a : A) (rest : string)
| Bad
| Raised (e : exn)
| Beyond
| Exhausted.

Arguments Got {A} a rest.
Arguments Bad {A}.
Arguments Raised {A} e.
Arguments Beyond {A}.
Arguments Exhausted {A}.

(** The scan [k] after the scan [r], from the text that [r] left. *)
Definition and_then {A B : Type} (r : scan A) (k : A -> string -> scan B)
  : scan B :=
  match r with
  | Got a rest => k a rest
  | Bad => Bad
  | Raised e => Raised e
  | Beyond => Beyond
  | Exhausted => Exhausted
  end.

Definition is_ws (c : ascii) : bool :=
  Ascii.eqb c " " || Ascii.eqb c "009" || Ascii.eqb c "010" || Ascii.eqb c "013".

Fixpoint skip_ws (s : string) : string :=
  match s with
  | EmptyString => EmptyString
  | String c r => if is_ws c then skip_ws r else s
  end.

Fixpoint skip (n : nat) (s : string) : string :=
  match n, s with
  | S n', String _ r => skip n' r
  | _, _ => s
  end.

Definition hexval (c : ascii) : option N :=
  let n := PyStr.ord c in
  if ((48 <=? n) && (n <=? 57))%N then Some (n - 48)%N
  else if ((97 <=? n) && (n <=? 102))%N then Some (n - 87)%N
  else if ((65 <=? n) && (n <=? 70))%N then Some (n - 55)%N
  else None.

Definition hex4 (a b c d : ascii) : option N :=
  match hexval a, hexval b, hexval c, hexval d with
  | Some x, Some y, Some z, Some w => Some (((x * 16 + y) * 16 + z) * 16 + w)%N
  | _, _, _, _ => None
  end.

(** The character a one-letter escape stands for. *)
Definition unescape (c : ascii) : option ascii :=
  if Ascii.eqb c dquote then Some dquote
  else if Ascii.eqb c backslash then Some backslash
  else if Ascii.eqb c "/" then Some "/"
  else if Ascii.eqb c "b" then Some "008"
  else if Ascii.eqb c "f" then Some "012"
  else if Ascii.eqb c "n" then Some "010"
  else if Ascii.eqb c "r" then Some "013"
  else if Ascii.eqb c "t" then Some "009"
  else None.

Definition cons_char (c : ascii) (r : scan string) : scan string :=
  and_then r (fun s rest => Got (String c s) rest).

(** The string whose opening quote was just read, up to its closing
    quote.  A control character is refused (strict mode). *)
Fixpoint scanstring (s : string) : scan string :=
  match s with
  | EmptyString => Bad
  | String c r =>
      if Ascii.eqb c dquote then Got EmptyString r
      else if Ascii.eqb c backslash then
        match r with
        | EmptyString => Bad
        | String e r' =>
            if Ascii.eqb e "u" then
              match r' with
              | String h1 (String h2 (String h3 (String h4 r''))) =>
                  match hex4 h1 h2 h3 h4 with
                  | Some n =>
                      if (n <? 256)%N then cons_char (PyStr.chr n) (scanstring r'')
                      else Beyond
                  | None => Bad
                  end
              | _ => Bad
              end
            else
              match unescape e with
              | Some x => cons_char x (scanstring r')
              | None => Bad
              end
        end
      else if (PyStr.ord c <? 32)%N then Bad
      else cons_char c (scanstring r)
  end.

Definition digit_of (c : ascii) : option (Decimal.uint -> Decimal.uint) :=
  match c with
  | "0" => Some Decimal.D0
  | "1" => Some Decimal.D1
  | "2" => Some Decimal.D2
  | "3" => Some Decimal.D3
  | "4" => Some Decimal.D4
  | "5" => Some Decimal.D5
  | "6" => Some Decimal.D6
  | "7" => Some Decimal.D7
  | "8" => Some Decimal.D8
  | "9" => Some Decimal.D9
  | _ => None
  end.

Definition is_digit (c : ascii) : bool :=
  match digit_of c with Some _ => true | None => false end.

(** The longest run of digits at the head of [s]. *)
Fixpoint scan_digits (s : string) : Decimal.uint * string :=
  match s with
  | EmptyString => (Decimal.Nil, EmptyString)
  | String c r =>
      match digit_of c with
      | Some d => let (u, rest) := scan_digits r in (d u, rest)
      | None => (Decimal.Nil, s)
      end
  end.

(** The integer part of a number: [0], or a digit from 1 to 9 and any
    digits. *)
Definition scan_intpart (s : string) : option (Decimal.uint * string) :=
  match s with
  | EmptyString => None
  | String c r =>
      if Ascii.eqb c "0" then Some (Decimal.D0 Decimal.Nil, r)
      else if is_digit c then Some (scan_digits s)
      else None
  end.

(** A fraction: a point and a digit. *)
Definition has_frac (s : string) : bool :=
  match s with
  | String c (String d _) => Ascii.eqb c "." && is_digit d
  | _ => false
  end.

(** An exponent: [e] or [E], a sign or none, and a digit. *)
Definition has_exp (s : string) : bool :=
  match s with
  | String c (String d r) =>
      (Ascii.eqb c "e" || Ascii.eqb c "E")
      && (is_digit d
          || ((Ascii.eqb d "+" || Ascii.eqb d "-")
              && match r with
                 | String d' _ => is_digit d'
                 | EmptyString => false
                 end))
  | _ => false
  end.

(** More digits than [int(numstr)] accepts. *)
Definition too_long (u : Decimal.uint) : bool :=
  (int_max_str_digits <? N.of_nat (Decimal.nb_digits u))%N.

(** A number.  The whole literal is read first; one with a fraction or
    an exponent is a float; the digits of an integer then go to [int],
    which refuses more than 4300 of them with a [ValueError]. *)
Definition scan_number (s : string) : scan value :=
  match s with
  | String "-" r =>
      match scan_intpart r with
      | Some (u, rest) =>
          if has_frac rest || has_exp rest then Beyond
          else if too_long u then Raised ValueError
          else Got (VInt (- Z.of_uint u)) rest
      | None => if PyStr.startswith "-Infinity" s then Beyond else Bad
      end
  | _ =>
      match scan_intpart s with
      | Some (u, rest) =>
          if has_frac rest || has_exp rest then Beyond
          else if too_long u then Raised ValueError
          else Got (VInt (Z.of_uint u)) rest
      | None =>
          if PyStr.startswith "NaN" s || PyStr.startswith "Infinity" s
          then Beyond else Bad
      end
  end.

(** A text before which a number ends: it does not go on with a digit,
    a point or an exponent. *)
Definition ends_number (rest : string) : bool :=
  match rest with
  | EmptyString => true
  | String c _ =>
      negb (is_digit c) && negb (Ascii.eqb c ".")
      && negb (Ascii.eqb c "e") && negb (Ascii.eqb c "E")
  end.

(** A run of digits that starts with a digit from 1 to 9. *)
Definition leading_nonzero (u : Decimal.uint) : bool :=
  match u with
  | Decimal.Nil | Decimal.D0 _ => false
  | _ => true
  end.

(** A text that starts a value: no blank, no closing bracket. *)
Definition opens_value (s : string) : bool :=
  match s with
  | EmptyString => false
  | String c _ => negb (is_ws c) && negb (Ascii.eqb c "]")
  end.

(** [dict(pairs)]: a key met again takes the later value. *)
Definition dict_of_pairs (pairs : list (string * value)) : list (string * value) :=
  fold_left (fun d kv => dict_set (fst kv) (snd kv) d) pairs [].

(** The value at the head of [s] ([scan_once]), the items of an array
    after its bracket or a comma ([elements]), and the members of an
    object from the text after the quote that opens a key ([members]).
    Each call takes one unit of [fuel].  [room] is how many arrays and
    objects, one inside the other, the interpreter still lets the
    scanner open: a bracket or a brace met with no room left raises
    [RecursionError], before anything after it is looked at. *)
Fixpoint scan_once (fuel room : nat) (s : string) {struct fuel} : scan value :=
  match fuel with
  | O => Exhausted
  | S fuel' =>
      match s with
      | EmptyString => Bad
      | String c r =>
          if Ascii.eqb c dquote then
            and_then (scanstring r) (fun x rest => Got (VStr x) rest)
          else if Ascii.eqb c "{" then
            match room with
            | O => Raised RecursionError
            | S room' =>
                match skip_ws r with
                | EmptyString => Bad
                | String c' r' =>
                    if Ascii.eqb c' "}" then Got (VDict []) r'
                    else if Ascii.eqb c' dquote then members fuel' room' r' []
                    else Bad
                end
            end
          else if Ascii.eqb c "[" then
            match room with
            | O => Raised RecursionError
            | S room' =>
                match skip_ws r with
                | EmptyString => Bad
                | String c' r' =>
                    if Ascii.eqb c' "]" then Got (VList []) r'
                    else elements fuel' room' (String c' r') []
                end
            end
          else if PyStr.startswith "null" s then Got VNone (skip 4 s)
          else if PyStr.startswith "true" s then Got (VBool true) (skip 4 s)
          else if PyStr.startswith "false" s then Got (VBool false) (skip 5 s)
          else scan_number s
      end
  end
with elements (fuel room : nat) (s : string) (acc : list value) {struct fuel}
  : scan value :=
  match fuel with
  | O => Exhausted
  | S fuel' =>
      and_then (scan_once fuel' room s) (fun v rest =>
        match skip_ws rest with
        | EmptyString => Bad
        | String c r =>
            if Ascii.eqb c "]" then Got (VList (acc ++ [v])) r
            else if Ascii.eqb c "," then
              elements fuel' room (skip_ws r) (acc ++ [v])
            else Bad
        end)
  end
with members (fuel room : nat) (s : string) (acc : list (string * value))
    {struct fuel} : scan value :=
  match fuel with
  | O => Exhausted
  | S fuel' =>
      and_then (scanstring s) (fun k rest =>
        match skip_ws rest with
        | EmptyString => Bad
        | String c r =>
            if Ascii.eqb c ":" then
              and_then (scan_once fuel' room (skip_ws r)) (fun v rest' =>
                match skip_ws rest' with
                | EmptyString => Bad
                | String c' r' =>
                    if Ascii.eqb c' "}" then
                      Got (VDict (dict_of_pairs (acc ++ [(k, v)]))) r'
                    else if Ascii.eqb c' "," then
                      match skip_ws r' with
                      | EmptyString => Bad
                      | String c'' r'' =>
                          if Ascii.eqb c'' dquote
                          then members fuel' room r'' (acc ++ [(k, v)])
                          else Bad
                      end
                    else Bad
                end)
            else Bad
        end)
  end.

(** The text written for [v] at any level, whatever follows it, is read
    back as [v] by a scan with fuel for the values inside [v] and room
    for their nesting, when no [int] of [v] is too long. *)
Definition reads_back (v : value) : Prop :=
  distinct_keys v -> ints_fit v = true ->
  forall (lvl fuel room : nat) (rest : string),
    2 * size v <= S fuel -> depth v <= room -> ends_number rest = true ->
    scan_once fuel room (dumps_at lvl v ++ rest)%string = Got v rest.

(** What the scan needs of a value to read back the text written for
    it with [room] for its nesting. *)
Definition readable (room : nat) (v : value) : Prop :=
  reads_back v /\ distinct_keys v /\ ints_fit v = true /\ depth v <= room.

(** What [json.loads] answers: a value, a [JSONDecodeError], another
    exception, or nothing where the model does not cover the text. *)
Inductive loaded : Type :=
| Value (v : value)
| DecodeError
| Raises (e : exn)
| NotModelled.

(** [json.loads(s)], with [room] for the nesting: blanks, one value,
    blanks, and the end of the text.  The fuel is twice the length of
    the text and one, which is enough for any text
    ([scan_once_has_fuel]). *)
Definition loads (room : nat) (s : string) : loaded :=
  match scan_once (2 * String.length s + 1) room (skip_ws s) with
  | Got v rest =>
      match skip_ws rest with
      | EmptyString => Value v
      | String _ _ => DecodeError
      end
  | Bad => DecodeError
  | Raised e => Raises e
  | Beyond | Exhausted => NotModelled
  end.

End Json.

(** ** The store and its operations *)

Module Store.

Import Py.

(** A book as [add_book] builds it (lines 49-55): a [dict] with the keys
    title, author, year, genre and read, in that order. *)
Record Book : Type := mkBook {
  title : string;
  author : string;
  year : Z;
  genre : string;
  read : bool
}.

Definition book_value (b : Book) : value :=
  VDict [("title", VStr (title b));
         ("author", VStr (author b));
         ("year", VInt (year b));
         ("genre", VStr (genre b));
         ("read", VBool (read b))].

Definition library_value (bs : list Book) : value := VList (map book_value bs).

(** What an operation displays: the calls of [st.success], [st.error],
    [st.info], [st.warning], [st.write] and [st.dataframe].  The
    percentage is kept as the number computed, before it is written with
    one decimal; a table is kept as the list of the records it is built
    from (lines 91 and 103). *)
Inductive event : Type :=
| St_success (msg : string)
| St_error (msg : string)
| St_info (msg : string)
| St_warning (msg : string)
| St_write (text : string)
| St_write_percentage (p : number)
| St_dataframe (rows : list value).

(** [st.session_state.library], the content of [library.txt] when the
    file exists, and what was displayed so far. *)
Record state : Type := mkState {
  library : value;
  library_file : option string;
  page : list event
}.

Definition set_library (v : value) (s : state) : state :=
  mkState v (library_file s) (page s).

Definition set_file (f : option string) (s : state) : state :=
  mkState (library s) f (page s).

Definition show (e : event) (s : state) : state :=
  mkState (library s) (library_file s) (page s ++ [e]).

(** How the read of [load_library] goes when the file exists: [open]
    and [file.read()] succeed and give the text of the file, and the
    scanner of [json.load] starts with [room] for its nesting, which is
    the recursion limit (1000 by default) less the calls that are on
    the stack by then; or one of the two raises ([OSError] for a file
    that cannot be opened, [UnicodeDecodeError] for bytes that are no
    text in the encoding of the locale). *)
Inductive reading : Type :=
| Reads (room : nat)
| ReadFails (e : exn).

(** [load_library] (lines 13-24).  Line 20 catches [JSONDecodeError]
    alone: any other exception of the read or of the decoder leaves the
    function.  [None]: the file holds a text the model of [json.load]
    does not cover. *)
Definition load_library (io : reading) (s : state) : option (result state) :=
  match library_file s with
  | Some text =>
      match io with
      | Reads room =>
          match Json.loads room text with
          | Json.Value v =>
              Some (Ok (show (St_success "Library loaded from file.")
                          (set_library v s)))
          | Json.DecodeError =>
              Some (Ok (set_library (VList [])
                          (show (St_error
                             "Error loading library file. Starting with an empty library.")
                             s)))
          | Json.Raises e => Some (Raise e)
          | Json.NotModelled => None
          end
      | ReadFails e => Some (Raise e)
      end
  | None =>
      Some (Ok (show (St_info "No library file found. Starting with an empty library.")
                  s))
  end.

(** How the write of [save_library] goes: to its end, or [open] fails
    (the file is left as it was), or a write fails after [written]
    characters went to the file that [open] emptied.  [why] is the text
    of the exception.  An exception of [json.dump] itself (a store
    nested deeper than the recursion limit allows, an [int] of more
    than 4300 digits) is caught by line 32 like one of the disk and is
    a write that fails. *)
Inductive disk : Type :=
| Written
| OpenFails (why : string)
| WriteFails (why : string) (written : nat).

(** [save_library] (lines 26-33). *)
Definition save_library (io : disk) (s : state) : state :=
  match io with
  | Written =>
      show (St_success "Library saved to file.")
        (set_file (Some (Json.dumps (library s))) s)
  | OpenFails why =>
      show (St_error ("Error saving library: " ++ why)) s
  | WriteFails why written =>
      show (St_error ("Error saving library: " ++ why))
        (set_file (Some (substring 0 written (Json.dumps (library s)))) s)
  end.

(** [add_book] (lines 35-59): the four inputs, the choice of the select
    box and whether the form was submitted. *)
Definition add_book (title author : string) (year : Z) (genre read : string)
    (submit : bool) (s : state) : result state :=
  if submit then
    if PyStr.nonempty (PyStr.strip title)
       && PyStr.nonempty (PyStr.strip author)
       && PyStr.nonempty (PyStr.strip genre)
    then
      let book :=
        book_value (mkBook (PyStr.strip title) (PyStr.strip author) year
                      (PyStr.strip genre) (String.eqb read "Yes")) in
      lib <- append (library s) book ;;
      Ok (show (St_success "Book added successfully!") (set_library lib s))
    else Ok (show (St_error "Please fill in all fields.") s)
  else Ok s.

(** The loop of [remove_book] (lines 67-72) over the copy [books], [key]
    being [title.strip().lower()]. *)
Fixpoint remove_scan (key : string) (books : list value) (s : state)
  : result state :=
  match books with
  | [] => Ok (show (St_error "Book not found in the library.") s)
  | book :: books' =>
      t <- getitem book "title" ;;
      t' <- str_lower t ;;
      if String.eqb t' key then
        lib <- remove (library s) book ;;
        Ok (show (St_success "Book removed successfully!") (set_library lib s))
      else remove_scan key books' s
  end.

(** [remove_book] (lines 61-74): the title typed and whether the button
    was pressed. *)
Definition remove_book (title : string) (pressed : bool) (s : state)
  : result state :=
  if pressed then
    if PyStr.nonempty (PyStr.strip title) then
      books <- iter_copy (library s) ;;
      remove_scan (PyStr.lower (PyStr.strip title)) books s
    else Ok (show (St_error "Please enter a book title.") s)
  else Ok s.

(** The comprehensions of lines 85 and 87:
    [[book for book in library if needle in book[field].lower()]]. *)
Fixpoint select (field needle : string) (books : list value)
  : result (list value) :=
  match books with
  | [] => Ok []
  | book :: books' =>
      f <- getitem book field ;;
      f' <- str_lower f ;;
      rest <- select field needle books' ;;
      Ok (if PyStr.contains needle f' then book :: rest else rest)
  end.

(** The columns of the tables (lines 93 and 105). *)
Definition columns : list string := ["title"; "author"; "year"; "genre"; "read"].

(** A record that holds the key [k]. *)
Definition has_key (k : string) (v : value) : bool :=
  match v with
  | VDict d => match dict_get k d with Some _ => true | None => false end
  | _ => false
  end.

(** The columns of [pd.DataFrame(rows)] are the keys of its records:
    [k] is one of them when some record holds it. *)
Definition column_of (rows : list value) (k : string) : bool :=
  existsb (has_key k) rows.

(** [search_book] (lines 76-97): the choice of the select box, the term
    typed and whether the button was pressed.  The matches are records
    that hold the field searched; the table of lines 91-93 needs each
    of the five columns in one of them at least: [df['read']] and
    [df[[...]]] raise [KeyError] for a column that no match holds. *)
Definition search_book (search_by search_term : string) (pressed : bool)
    (s : state) : result state :=
  if pressed then
    if PyStr.nonempty (PyStr.strip search_term) then
      books <- iter (library s) ;;
      matches <-
        select (if String.eqb search_by "Title" then "title" else "author")
          (PyStr.lower search_term) books ;;
      match matches with
      | [] => Ok (show (St_warning "No matching books found.") s)
      | _ :: _ =>
          if forallb (column_of matches) columns then
            Ok (show (St_dataframe matches) (show (St_write "**Matching Books:**") s))
          else Raise KeyError
      end
    else
      Ok (show (St_error ("Please enter a " ++ PyStr.lower search_by ++ " to search.")) s)
  else Ok s.

(** [sum(1 for book in library if book["read"])] (line 114). *)
Fixpoint count_read (books : list value) : result Z :=
  match books with
  | [] => Ok 0%Z
  | book :: books' =>
      r <- getitem book "read" ;;
      n <- count_read books' ;;
      Ok (if truthy r then (1 + n)%Z else n)
  end.

(** The three numbers of lines 113-115: [total_books], [read_books] and
    [percentage_read]. *)
Definition statistics (lib : value) : result (Z * Z * number) :=
  total_books <- len lib ;;
  books <- iter lib ;;
  read_books <- count_read books ;;
  percentage_read <-
    (if (0 <? total_books)%Z then
       q <- truediv read_books total_books ;;
       Ok (NumFloat (PrimFloat.mul q (float_of_int 100)))
     else Ok (NumInt 0)) ;;
  Ok (total_books, read_books, percentage_read).

(** [display_statistics] (lines 109-120). *)
Definition display_statistics (s : state) : result state :=
  if truthy (library s) then
    r <- statistics (library s) ;;
    let '(total_books, _, percentage_read) := r in
    Ok (show (St_write_percentage percentage_read)
          (show (St_write ("**Total books:** " ++ repr_int total_books)) s))
  else Ok (show (St_warning "Your library is empty.") s).

(** The start of [main] (lines 128-129): the file is read only while the
    store is empty. *)
Definition startup (io : reading) (s : state) : option (result state) :=
  if truthy (library s) then Some (Ok s) else load_library io s.

(** The state a session starts in (lines 10-11), for a given file. *)
Definition initial (f : option string) : state := mkState (VList []) f [].

(** A record that holds the five columns. *)
Definition has_columns (v : value) : bool :=
  match v with
  | VDict d =>
      forallb (fun k => match dict_get k d with Some _ => true | None => false end)
        columns
  | _ => false
  end.

(** [display_all_books] (lines 99-107).  The table that pandas builds is
    modelled for a store that is a list of records holding the five
    columns, which it shows row by row; [None] for any other store that
    is not empty. *)
Definition display_all_books (s : state) : option state :=
  if truthy (library s) then
    match library s with
    | VList rows =>
        if forallb has_columns rows then Some (show (St_dataframe rows) s)
        else None
    | _ => None
    end
  else Some (show (St_warning "Your library is empty.") s).

(** The widgets of one run of the script: the choice of the menu, the
    inputs of the three forms and their buttons, and how a write to the
    file and a read of it would go. *)
Record widgets : Type := mkWidgets {
  w_menu : string;
  w_title : string;
  w_author : string;
  w_year : Z;
  w_genre : string;
  w_read : string;
  w_submit : bool;
  w_remove_title : string;
  w_remove : bool;
  w_search_by : string;
  w_search_term : string;
  w_search : bool;
  w_disk : disk;
  w_reading : reading
}.

(** The menu of [main] (lines 137-150).  After the save, the notice is
    displayed whatever the save did, and [st.stop()] ends the run. *)
Definition dispatch (w : widgets) (s : state) : option (result state) :=
  if String.eqb (w_menu w) "Add a Book" then
    Some (add_book (w_title w) (w_author w) (w_year w) (w_genre w) (w_read w)
            (w_submit w) s)
  else if String.eqb (w_menu w) "Remove a Book" then
    Some (remove_book (w_remove_title w) (w_remove w) s)
  else if String.eqb (w_menu w) "Search for a Book" then
    Some (search_book (w_search_by w) (w_search_term w) (w_search w) s)
  else if String.eqb (w_menu w) "Display All Books" then
    option_map Ok (display_all_books s)
  else if String.eqb (w_menu w) "Display Statistics" then
    Some (display_statistics s)
  else if String.eqb (w_menu w) "Save and Exit" then
    Some (Ok (show (St_info "Library saved. You can close the app.")
                (save_library (w_disk w) s)))
  else Some (Ok s).

(** [main] (lines 122-150), one run of the script: the file is read when
    the store is empty, then the menu is served; an exception of the
    read ends the run.  The title and the headings are not kept on the
    page.  [None]: a step the model does not cover. *)
Definition main (w : widgets) (s : state) : option (result state) :=
  match startup (w_reading w) s with
  | Some (Ok s1) => dispatch w s1
  | Some (Raise e) => Some (Raise e)
  | None => None
  end.

End Store.


(** ** The properties stated: predicates and reference definitions

    These definitions follow the words of the specification; the
    theorems below compare them with the operations of [Store]. *)

Module Spec.

Import Py Store.

(** [needle] occurs in [hay] as a run of consecutive characters. *)
Definition substring_of (needle hay : string) : Prop :=
  exists pre post : string, hay = (pre ++ needle ++ post)%string.

Definition starts_with_space (s : string) : bool :=
  match s with
  | EmptyString => false
  | String c _ => PyStr.isspace c
  end.

Fixpoint ends_with_space (s : string) : bool :=
  match s with
  | EmptyString => false
  | String c EmptyString => PyStr.isspace c
  | String _ r => ends_with_space r
  end.

(** A text field of a book: not empty, no blank at either end. *)
Definition text_ok (s : string) : Prop :=
  s <> EmptyString /\ starts_with_space s = false /\ ends_with_space s = false.

(** The invariant of a book (section 3). *)
Definition valid_book (b : Book) : Prop :=
  text_ok (title b) /\ text_ok (author b) /\ text_ok (genre b)
  /\ (1 <= year b <= 2025)%Z.

(** Its part on the three texts. *)
Definition trimmed_book (b : Book) : Prop :=
  text_ok (title b) /\ text_ok (author b) /\ text_ok (genre b).

(** The store holds books, each of them valid. *)
Definition valid_store (v : value) : Prop :=
  exists bs : list Book, v = library_value bs /\ Forall valid_book bs.

(** The title of [b] is the input [typed], trimmed, up to the case of
    the letters. *)
Definition same_title (typed : string) (b : Book) : bool :=
  String.eqb (PyStr.lower (title b)) (PyStr.lower (PyStr.strip typed)).

(** The position of the first book of a list whose title, in lower
    case, is [key]; an item that has no title, or whose title is no
    text, raises as it does in [Store.remove_scan]. *)
Fixpoint first_match (key : string) (books : list value) : result (option nat) :=
  match books with
  | [] => Ok None
  | book :: books' =>
      t <- getitem book "title" ;;
      t' <- str_lower t ;;
      if String.eqb t' key then Ok (Some O)
      else i <- first_match key books' ;; Ok (option_map S i)
  end.

(** [del l[i]] *)
Fixpoint delete_at (i : nat) (l : list value) : list value :=
  match l, i with
  | [], _ => []
  | _ :: l', O => l'
  | x :: l', S i' => x :: delete_at i' l'
  end.

(** Removal by position: the item at the first matching position goes. *)
Definition remove_direct (typed : string) (l : list value) (s : state)
  : result state :=
  i <- first_match (PyStr.lower (PyStr.strip typed)) l ;;
  match i with
  | Some i =>
      Ok (show (St_success "Book removed successfully!")
            (set_library (VList (delete_at i l)) s))
  | None => Ok (show (St_error "Book not found in the library.") s)
  end.

(** The field a search looks at. *)
Definition field_of (search_by : string) (b : Book) : string :=
  if String.eqb search_by "Title" then title b else author b.

Definition quoted (s : string) : string :=
  String Json.dquote (s ++ String Json.dquote EmptyString).

Definition line_break : string := String Json.newline EmptyString.

(** The texts of the file are given here on their own, by the grammar
    of JSON (RFC 8259) and not by the encoder of [Json]. *)

(** The digits of base 16, in lower case. *)
Definition hex_char (n : N) : ascii :=
  match n with
  | 0%N => "0" | 1%N => "1" | 2%N => "2" | 3%N => "3" | 4%N => "4"
  | 5%N => "5" | 6%N => "6" | 7%N => "7" | 8%N => "8" | 9%N => "9"
  | 10%N => "a" | 11%N => "b" | 12%N => "c" | 13%N => "d" | 14%N => "e"
  | _ => "f"
  end%char.

(** A character between the quotes of a string, in ASCII: the quote and
    the backslash after a backslash; backspace, tab, line feed, form
    feed and carriage return by their letter; any other character that
    is not printable ASCII by four digits of base 16. *)
Definition json_char (c : ascii) : string :=
  match PyStr.ord c with
  | 34%N => String "\" (String Json.dquote EmptyString)
  | 92%N => "\\"
  | 8%N => "\b"
  | 9%N => "\t"
  | 10%N => "\n"
  | 12%N => "\f"
  | 13%N => "\r"
  | n =>
      if ((n <? 32) || (126 <? n))%N then
        ("\u00" ++ String (hex_char (n / 16)) (String (hex_char (n mod 16)) EmptyString))%string
      else String c EmptyString
  end.

Fixpoint json_chars (s : string) : string :=
  match s with
  | EmptyString => EmptyString
  | String c r => (json_char c ++ json_chars r)%string
  end.

(** A string of JSON. *)
Definition json_string (s : string) : string := quoted (json_chars s).

Definition digit_char (d : N) : ascii := PyStr.chr (48 + d).

(** The digits of [n] in base 10 before the text [acc], found from the
    last one by division; [fuel] bounds their number. *)
Fixpoint digits_before (fuel : nat) (n : N) (acc : string) : string :=
  match fuel with
  | O => acc
  | S fuel' =>
      let acc' := String (digit_char (n mod 10)) acc in
      if (n <? 10)%N then acc' else digits_before fuel' (n / 10) acc'
  end.

(** The digit [d] before the digits [u]. *)
Definition digit (d : N) (u : Decimal.uint) : Decimal.uint :=
  match d with
  | 0%N => Decimal.D0 u | 1%N => Decimal.D1 u | 2%N => Decimal.D2 u
  | 3%N => Decimal.D3 u | 4%N => Decimal.D4 u | 5%N => Decimal.D5 u
  | 6%N => Decimal.D6 u | 7%N => Decimal.D7 u | 8%N => Decimal.D8 u
  | _ => Decimal.D9 u
  end.

(** The digits of [n], the last one first. *)
Fixpoint last_first (fuel : nat) (n : N) : Decimal.uint :=
  match fuel with
  | O => Decimal.Nil
  | S fuel' =>
      if (n <? 10)%N then digit n Decimal.Nil
      else digit (n mod 10) (last_first fuel' (n / 10))
  end.

(** An integer of JSON: a minus sign when negative, and the digits in
    base 10 with no zero in front.  A number has no more digits in base
    10 than in base 2. *)
Definition numeral (n : Z) : string :=
  let digits :=
    digits_before (S (N.to_nat (N.size (Z.abs_N n)))) (Z.abs_N n) EmptyString in
  if (n <? 0)%Z then String "-" digits else digits.

(** One record of the file: its five fields in the order title, author,
    year, genre, read, one per line, eight spaces in, between braces
    that stand four spaces in. *)
Definition record_text (b : Book) : string :=
  ("{" ++ line_break
   ++ "        " ++ quoted "title" ++ ": " ++ json_string (title b) ++ "," ++ line_break
   ++ "        " ++ quoted "author" ++ ": " ++ json_string (author b) ++ "," ++ line_break
   ++ "        " ++ quoted "year" ++ ": " ++ numeral (year b) ++ "," ++ line_break
   ++ "        " ++ quoted "genre" ++ ": " ++ json_string (genre b) ++ "," ++ line_break
   ++ "        " ++ quoted "read" ++ ": " ++ (if read b then "true" else "false") ++ line_break
   ++ "    }")%string.

Fixpoint more_records (bs : list Book) : string :=
  match bs with
  | [] => EmptyString
  | b :: bs' => ("," ++ line_break ++ "    " ++ record_text b ++ more_records bs')%string
  end.

(** The text of the file: an array with one record after the other. *)
Definition file_text (bs : list Book) : string :=
  match bs with
  | [] => "[]"
  | b :: bs' =>
      ("[" ++ line_break ++ "    " ++ record_text b ++ more_records bs'
       ++ line_break ++ "]")%string
  end.

(** A record of the schema that holds its author before its title, and
    the file that holds it alone. *)
Definition book_author_first : value :=
  VDict [("author", VStr "Frank Herbert");
         ("title", VStr "Dune");
         ("year", VInt 1965);
         ("genre", VStr "SciFi");
         ("read", VBool true)].

Definition file_author_first : string :=
  ("[" ++ line_break ++ "    {" ++ line_break
   ++ "        " ++ quoted "author" ++ ": " ++ quoted "Frank Herbert" ++ "," ++ line_break
   ++ "        " ++ quoted "title" ++ ": " ++ quoted "Dune" ++ "," ++ line_break
   ++ "        " ++ quoted "year" ++ ": 1965," ++ line_break
   ++ "        " ++ quoted "genre" ++ ": " ++ quoted "SciFi" ++ "," ++ line_break
   ++ "        " ++ quoted "read" ++ ": true" ++ line_break
   ++ "    }" ++ line_break ++ "]")%string.

(** The binary64 value of [read / total * 100]. *)
Definition percent_read (read_count total : Z) : float :=
  PrimFloat.mul (PrimFloat.div (float_of_int read_count) (float_of_int total))
    (float_of_int 100).


(** [n] opening brackets, one after the other. *)
Fixpoint brackets (n : nat) : string :=
  match n with
  | O => EmptyString
  | S n' => String "[" (brackets n')
  end.

(** The characters of a plain text: the printable characters of ASCII
    and the line feed. *)
Definition plain_char (c : ascii) : bool :=
  Ascii.eqb c "010" || ((32 <=? PyStr.ord c) && (PyStr.ord c <=? 126))%N.

Fixpoint plain (s : string) : bool :=
  match s with
  | EmptyString => true
  | String c r => plain_char c && plain r
  end.

End Spec.


(** * Properties *)

Import PyStr Py Store Spec.

Local Open Scope string_scope.
Local Open Scope list_scope.

(** ** Strings *)

Lemma nonempty_true (s : string) : nonempty s = true <-> s <> EmptyString.
Proof. destruct s; simpl; split; congruence. Qed.

Lemma nonempty_false (s : string) : nonempty s = false <-> s = EmptyString.
Proof. destruct s; simpl; split; congruence. Qed.

Lemma lstrip_no_space (s : string) : starts_with_space (lstrip s) = false.
Proof.
  induction s as [|c r IH]; simpl; [reflexivity|].
  destruct (isspace c) eqn:E; [exact IH | simpl; exact E].
Qed.

Lemma rstrip_head (s : string) :
  starts_with_space s = false -> starts_with_space (rstrip s) = false.
Proof.
  destruct s as [|c r]; simpl; [reflexivity|].
  intros E. destruct (rstrip r); [rewrite E|]; simpl; auto.
Qed.

Lemma rstrip_no_space (s : string) : ends_with_space (rstrip s) = false.
Proof.
  induction s as [|c r IH]; simpl; [reflexivity|].
  destruct (rstrip r) as [|c' r'] eqn:E.
  - destruct (isspace c) eqn:Ec; simpl; auto.
  - exact IH.
Qed.

Lemma strip_text_ok (s : string) : strip s <> EmptyString -> text_ok (strip s).
Proof.
  intros H. repeat split; [exact H | |].
  - apply rstrip_head, lstrip_no_space.
  - apply rstrip_no_space.
Qed.

Lemma rstrip_fixed (s : string) :
  ends_with_space s = false -> rstrip s = s.
Proof.
  induction s as [|c r IH]; simpl; [reflexivity|].
  destruct r as [|c' r'].
  - simpl. intros ->. reflexivity.
  - intros E. rewrite (IH E). reflexivity.
Qed.

Lemma lstrip_fixed (s : string) :
  starts_with_space s = false -> lstrip s = s.
Proof. destruct s; simpl; [reflexivity|]. intros ->. reflexivity. Qed.

Lemma strip_idempotent (s : string) : strip (strip s) = strip s.
Proof.
  unfold strip.
  rewrite (lstrip_fixed (rstrip (lstrip s))) by apply rstrip_head, lstrip_no_space.
  apply rstrip_fixed, rstrip_no_space.
Qed.

Lemma startswith_spec (p s : string) :
  startswith p s = true <-> exists post, s = (p ++ post)%string.
Proof.
  revert s. induction p as [|a p IH]; intros s; simpl.
  - split; [exists s; reflexivity | reflexivity].
  - destruct s as [|b s].
    + split; [discriminate | intros [post H]; discriminate].
    + rewrite andb_true_iff, Ascii.eqb_eq, IH. split.
      * intros [-> [post ->]]. exists post. reflexivity.
      * intros [post H]. injection H as -> ->. split; [reflexivity | exists post; reflexivity].
Qed.

Lemma contains_spec (needle hay : string) :
  contains needle hay = true <-> substring_of needle hay.
Proof.
  unfold substring_of. induction hay as [|c hay IH].
  - simpl. rewrite orb_false_r, startswith_spec. split.
    + intros [post H]. exists EmptyString, post. exact H.
    + intros [pre [post H]]. destruct pre; [exists post; exact H | discriminate].
  - cbn [contains]. rewrite orb_true_iff, startswith_spec, IH. split.
    + intros [[post H] | [pre [post H]]].
      * exists EmptyString, post. exact H.
      * exists (String c pre), post. simpl. rewrite H. reflexivity.
    + intros [pre [post H]]. destruct pre as [|a pre].
      * left. exists post. exact H.
      * right. simpl in H. injection H as -> H. exists pre, post. exact H.
Qed.

(** ** Values, and removal from a list *)

Lemma distinct_keys_list (l : list value) :
  distinct_keys (VList l) <-> Forall distinct_keys l.
Proof.
  induction l as [|x l IH]; simpl.
  - split; [constructor | trivial].
  - split.
    + intros [Hx Hl]. constructor; [exact Hx | apply IH, Hl].
    + intros H. inversion H; subst. split; [assumption | apply IH; assumption].
Qed.

Lemma distinct_keys_dict (d : list (string * value)) :
  distinct_keys (VDict d)
  <-> NoDup (map fst d) /\ Forall (fun kv => distinct_keys (snd kv)) d.
Proof.
  simpl. apply and_iff_compat_l.
  induction d as [|[k x] d IH].
  - split; [constructor | trivial].
  - split.
    + intros [Hx Hd]. constructor; [exact Hx | apply IH, Hd].
    + intros H. inversion H; subst. split; [assumption | apply IH; assumption].
Qed.

Lemma dict_get_first (k : string) (x : value) (d : list (string * value)) :
  NoDup (map fst d) -> In (k, x) d -> dict_get k d = Some x.
Proof.
  induction d as [|[k0 x0] d IH]; simpl; [tauto|].
  intros Hn [H | H].
  - injection H as -> ->. rewrite String.eqb_refl. reflexivity.
  - inversion Hn as [|? ? Hk Hd]; subst.
    destruct (String.eqb k k0) eqn:E.
    + apply String.eqb_eq in E. subst k0. exfalso. apply Hk.
      apply (in_map fst) in H. exact H.
    + apply IH; assumption.
Qed.

Lemma py_eq_dict_get (d e : list (string * value)) (k : string) (v : value) :
  py_eq (VDict d) (VDict e) = true -> dict_get k d = Some v ->
  exists v', dict_get k e = Some v' /\ py_eq v v' = true.
Proof.
  simpl. intros H. apply andb_true_iff in H. destruct H as [_ H]. revert H.
  induction d as [|[k0 x] d IH]; simpl; [discriminate|].
  intros H Hg. apply andb_true_iff in H. destruct H as [H1 H2].
  destruct (String.eqb k k0) eqn:E.
  - apply String.eqb_eq in E. subst k0. injection Hg as <-.
    destruct (dict_get k e) as [y|]; [|discriminate].
    exists y. split; [reflexivity | exact H1].
  - apply IH; assumption.
Qed.

Lemma py_eq_str (s : string) (v : value) : py_eq (VStr s) v = true -> v = VStr s.
Proof.
  destruct v; simpl; try discriminate.
  intros H. apply String.eqb_eq in H. congruence.
Qed.

Lemma py_eq_refl (v : value) : distinct_keys v -> py_eq v v = true.
Proof.
  induction v as [| b | n | s | l IH | d IH] using value_induction.
  - reflexivity.
  - intros _. simpl. apply Bool.eqb_reflx.
  - intros _. simpl. apply Z.eqb_refl.
  - intros _. simpl. apply String.eqb_refl.
  - rewrite distinct_keys_list. intros H. simpl.
    induction l as [|x l IHl]; [reflexivity|].
    inversion IH; subst. inversion H; subst.
    rewrite andb_true_iff. split; [auto | apply IHl; assumption].
  - rewrite distinct_keys_dict. intros [Hn Hd]. simpl.
    rewrite Nat.eqb_refl. simpl.
    assert (G : forall d', incl d' d ->
      (fix all_in (d0 : list (string * value)) : bool :=
         match d0 with
         | [] => true
         | (k, x) :: d'0 =>
             match dict_get k d with
             | Some y => py_eq x y
             | None => false
             end && all_in d'0
         end) d' = true).
    { induction d' as [|[k x] d' IHd']; intros Hi; [reflexivity|].
      assert (Hin : In (k, x) d) by (apply Hi; left; reflexivity).
      rewrite (dict_get_first k x d Hn Hin).
      rewrite Forall_forall in IH, Hd.
      pose proof (IH (k, x) Hin (Hd (k, x) Hin)) as Hx. simpl in Hx.
      rewrite Hx. simpl.
      apply IHd'. intros z Hz. apply Hi. right. exact Hz. }
    apply G. apply incl_refl.
Qed.

(** The title of an item, in lower case, as the loops read it. *)
Lemma same_lowered_title (z y tz ty : value) (kz ky : string) :
  py_eq z y = true ->
  getitem z "title" = Ok tz -> str_lower tz = Ok kz ->
  getitem y "title" = Ok ty -> str_lower ty = Ok ky ->
  kz = ky.
Proof.
  intros He Hz Hkz Hy Hky.
  destruct z as [| | | | |d]; try discriminate.
  destruct y as [| | | | |e]; try discriminate.
  unfold getitem in Hz, Hy.
  destruct (dict_get "title" d) as [vz|] eqn:Ez; [|discriminate].
  destruct (dict_get "title" e) as [vy|] eqn:Ey; [|discriminate].
  injection Hz as <-. injection Hy as <-.
  destruct (py_eq_dict_get d e "title" vz He Ez) as [v' [Hv' Heq]].
  rewrite Ey in Hv'. injection Hv' as <-.
  destruct vz; try discriminate. apply py_eq_str in Heq. subst vy.
  simpl in Hkz, Hky. congruence.
Qed.

Lemma list_remove_first (x : value) (pre post : list value) :
  Forall (fun z => py_eq z x = false) pre -> py_eq x x = true ->
  list_remove x (pre ++ x :: post) = Ok (pre ++ post).
Proof.
  intros Hpre Hx. induction Hpre as [|z pre Hz Hpre IH]; simpl.
  - rewrite Hx. reflexivity.
  - rewrite Hz, IH. reflexivity.
Qed.

(** The loop of [remove_book] against removal by position, the items
    [pre] having been passed over. *)
Lemma remove_scan_by_position (key : string) (books pre : list value) (s : state) :
  library s = VList (pre ++ books) ->
  Forall distinct_keys books ->
  Forall (fun z => exists tz kz, getitem z "title" = Ok tz
                     /\ str_lower tz = Ok kz /\ String.eqb kz key = false) pre ->
  remove_scan key books s
  = (i <- first_match key books ;;
     match i with
     | Some i =>
         Ok (show (St_success "Book removed successfully!")
               (set_library (VList (pre ++ delete_at i books)) s))
     | None => Ok (show (St_error "Book not found in the library.") s)
     end).
Proof.
  revert pre. induction books as [|y books IH]; intros pre Hl Hd Hpre.
  - reflexivity.
  - inversion Hd as [|? ? Hy Hd']; subst.
    cbn [remove_scan first_match].
    destruct (getitem y "title") as [ty|e] eqn:Ety; [|reflexivity].
    cbn [bind].
    destruct (str_lower ty) as [ky|e] eqn:Eky; [|reflexivity].
    cbn [bind].
    destruct (String.eqb ky key) eqn:Ek.
    + cbn [bind delete_at]. rewrite Hl. cbn [remove].
      rewrite list_remove_first; [reflexivity | | apply py_eq_refl; exact Hy].
      apply String.eqb_eq in Ek.
      eapply Forall_impl; [|exact Hpre].
      intros z [tz [kz [Hz [Hkz Hne]]]].
      destruct (py_eq z y) eqn:E; [|reflexivity].
      rewrite (same_lowered_title z y tz ty kz ky E Hz Hkz Ety Eky) in Hne.
      apply String.eqb_neq in Hne. congruence.
    + rewrite (IH (pre ++ [y])).
      * destruct (first_match key books) as [[i|]|e]; cbn [bind option_map delete_at];
          [rewrite <- app_assoc; reflexivity | reflexivity | reflexivity].
      * rewrite <- app_assoc. exact Hl.
      * exact Hd'.
      * apply Forall_app. split; [exact Hpre|].
        constructor; [|constructor]. exists ty, ky. auto.
Qed.

Lemma remove_book_by_position (typed : string) (l : list value) (s : state) :
  library s = VList l -> Forall distinct_keys l ->
  nonempty (strip typed) = true ->
  remove_book typed true s = remove_direct typed l s.
Proof.
  intros Hl Hd Hn. unfold remove_book, remove_direct. rewrite Hn, Hl.
  cbn [iter_copy bind].
  rewrite (remove_scan_by_position _ l [] s); [reflexivity | exact Hl | exact Hd | constructor].
Qed.

Lemma book_value_distinct_keys (b : Book) : distinct_keys (book_value b).
Proof.
  simpl. split; [|tauto].
  repeat constructor; simpl; intuition discriminate.
Qed.

Lemma library_value_distinct_keys (bs : list Book) :
  Forall distinct_keys (map book_value bs).
Proof.
  induction bs; constructor; [apply book_value_distinct_keys | assumption].
Qed.

(** ** The [json] module: what [dumps] writes, [loads] reads back *)


Lemma append_assoc (a b c : string) : ((a ++ b) ++ c = a ++ (b ++ c))%string.
Proof. induction a as [|x a IH]; simpl; [reflexivity | rewrite IH; reflexivity]. Qed.

Lemma append_nil_r (a : string) : (a ++ EmptyString)%string = a.
Proof. induction a as [|x a IH]; simpl; [reflexivity | rewrite IH; reflexivity]. Qed.

Lemma length_append (a b : string) :
  String.length (a ++ b)%string = String.length a + String.length b.
Proof. induction a as [|x a IH]; simpl; [reflexivity | rewrite IH; reflexivity]. Qed.

(** Strings *)
Lemma scanstring_encode_char (c : ascii) (r : string) :
  Json.scanstring (Json.encode_char c ++ r)%string = Json.cons_char c (Json.scanstring r).
Proof.
  destruct c as [[] [] [] [] [] [] [] []]; reflexivity.
Qed.

Lemma scanstring_escape (s rest : string) :
  Json.scanstring (Json.escape s ++ String Json.dquote rest)%string = Json.Got s rest.
Proof.
  induction s as [|c s IH]; [reflexivity|].
  cbn [Json.escape]. rewrite append_assoc, scanstring_encode_char, IH. reflexivity.
Qed.

(** Numbers *)
Lemma scan_digits_string_of_uint (u : Decimal.uint) (rest : string) :
  Json.ends_number rest = true ->
  Json.scan_digits (NilEmpty.string_of_uint u ++ rest)%string = (u, rest).
Proof.
  intros H. induction u; cbn [NilEmpty.string_of_uint String.append];
    try (cbn [Json.scan_digits Json.digit_of]; rewrite IHu; reflexivity).
  destruct rest as [|c r]; [reflexivity|].
  cbn [Json.scan_digits String.append]. unfold Json.ends_number, Json.is_digit in H.
  destruct (Json.digit_of c); [discriminate H | reflexivity].
Qed.

Lemma ends_number_no_float (rest : string) :
  Json.ends_number rest = true -> Json.has_frac rest || Json.has_exp rest = false.
Proof.
  destruct rest as [|c [|d r]]; try reflexivity.
  unfold Json.ends_number, Json.has_frac, Json.has_exp.
  destruct (Ascii.eqb c "."), (Ascii.eqb c "e"), (Ascii.eqb c "E");
    rewrite ?andb_false_r; simpl; try discriminate; reflexivity.
Qed.

Lemma to_uint_leading_nonzero (p : positive) : Json.leading_nonzero (Pos.to_uint p) = true.
Proof.
  pose proof (DecimalPos.Unsigned.to_of (Pos.to_uint p)) as H.
  rewrite DecimalPos.Unsigned.of_to in H. simpl in H.
  pose proof (DecimalPos.Unsigned.to_uint_nonzero p) as Hz.
  destruct (Pos.to_uint p) as [|u|u|u|u|u|u|u|u|u|u] eqn:E; try reflexivity.
  - exfalso. discriminate H.
  - exfalso. rewrite unorm_D0 in H.
    destruct (Decimal.uint_eq_dec (Decimal.nzhead u) Decimal.Nil) as [Hn | Hn].
    + unfold Decimal.unorm in H. rewrite Hn in H. apply Hz. exact H.
    + rewrite (unorm_nzhead _ Hn) in H.
      pose proof (nb_digits_nzhead u) as Hl. rewrite <- H in Hl. simpl in Hl. lia.
Qed.

Lemma scan_once_digits (fuel room : nat) (u : Decimal.uint) (rest : string) :
  Json.leading_nonzero u = true -> Json.too_long u = false ->
  Json.ends_number rest = true ->
  Json.scan_once (S fuel) room (NilEmpty.string_of_uint u ++ rest)%string
  = Json.Got (VInt (Z.of_uint u)) rest.
Proof.
  intros Hu Ht Hr.
  destruct u; try discriminate Hu;
    cbn [NilEmpty.string_of_uint String.append];
    cbn - [Json.scan_digits Json.has_frac Json.has_exp Z.of_uint Json.too_long];
    cbn [Json.scan_digits Json.digit_of];
    rewrite (scan_digits_string_of_uint _ _ Hr), (ends_number_no_float _ Hr), Ht;
    reflexivity.
Qed.

Lemma scan_once_minus_digits (fuel room : nat) (u : Decimal.uint) (rest : string) :
  Json.leading_nonzero u = true -> Json.too_long u = false ->
  Json.ends_number rest = true ->
  Json.scan_once (S fuel) room (String "-" (NilEmpty.string_of_uint u ++ rest))%string
  = Json.Got (VInt (- Z.of_uint u)) rest.
Proof.
  intros Hu Ht Hr.
  destruct u; try discriminate Hu;
    cbn [NilEmpty.string_of_uint String.append];
    cbn - [Json.scan_digits Json.has_frac Json.has_exp Z.of_uint Z.opp Json.too_long];
    cbn [Json.scan_digits Json.digit_of];
    rewrite (scan_digits_string_of_uint _ _ Hr), (ends_number_no_float _ Hr), Ht;
    reflexivity.
Qed.

(** A number that [int_fits] is not too long for [int]. *)
Lemma int_fits_not_too_long (n : Z) :
  int_fits n = true -> Json.too_long (int_digits n) = false.
Proof.
  unfold int_fits, Json.too_long. intros H. apply N.leb_le in H.
  apply N.ltb_ge. exact H.
Qed.

Lemma scan_once_int (fuel room : nat) (n : Z) (rest : string) :
  int_fits n = true -> Json.ends_number rest = true ->
  Json.scan_once (S fuel) room (repr_int n ++ rest)%string = Json.Got (VInt n) rest.
Proof.
  intros Hn Hr. apply int_fits_not_too_long in Hn. revert Hn.
  unfold repr_int, int_digits.
  destruct n as [|p|p]; cbn [Z.to_int NilEmpty.string_of_int]; intros Hn.
  - cbn - [Json.has_frac Json.has_exp Json.too_long].
    rewrite (ends_number_no_float _ Hr), Hn. reflexivity.
  - rewrite scan_once_digits by (auto using to_uint_leading_nonzero).
    unfold Z.of_uint. rewrite DecimalPos.Unsigned.of_to. reflexivity.
  - cbn [String.append]. rewrite scan_once_minus_digits by (auto using to_uint_leading_nonzero).
    unfold Z.of_uint. rewrite DecimalPos.Unsigned.of_to. reflexivity.
Qed.

(** The nesting and the integers of the items of a list and of the
    values of a dict. *)
Lemma depth_list (l : list value) (room : nat) :
  depth (VList l) <= S room <-> Forall (fun x => depth x <= room) l.
Proof.
  cbn [depth]. rewrite <- Nat.succ_le_mono.
  induction l as [|x l IH].
  - split; [constructor | intros _; apply Nat.le_0_l].
  - rewrite Nat.max_lub_iff, IH. split.
    + intros [Hx Hl]. constructor; assumption.
    + intros H. inversion H; subst. split; assumption.
Qed.

Lemma depth_dict (d : list (string * value)) (room : nat) :
  depth (VDict d) <= S room <-> Forall (fun kv => depth (snd kv) <= room) d.
Proof.
  cbn [depth]. rewrite <- Nat.succ_le_mono.
  induction d as [|[k x] d IH].
  - split; [constructor | intros _; apply Nat.le_0_l].
  - rewrite Nat.max_lub_iff, IH. split.
    + intros [Hx Hl]. constructor; assumption.
    + intros H. inversion H; subst. split; assumption.
Qed.

Lemma depth_container (v : value) :
  (exists l, v = VList l) \/ (exists d, v = VDict d) -> 1 <= depth v.
Proof. intros [[l ->] | [d ->]]; cbn [depth]; lia. Qed.

Lemma ints_fit_list (l : list value) :
  ints_fit (VList l) = true <-> Forall (fun x => ints_fit x = true) l.
Proof.
  cbn [ints_fit]. induction l as [|x l IH].
  - split; [constructor | reflexivity].
  - rewrite andb_true_iff, IH. split.
    + intros [Hx Hl]. constructor; assumption.
    + intros H. inversion H; subst. split; assumption.
Qed.

Lemma ints_fit_dict (d : list (string * value)) :
  ints_fit (VDict d) = true <-> Forall (fun kv => ints_fit (snd kv) = true) d.
Proof.
  cbn [ints_fit]. induction d as [|[k x] d IH].
  - split; [constructor | reflexivity].
  - rewrite andb_true_iff, IH. split.
    + intros [Hx Hl]. constructor; assumption.
    + intros H. inversion H; subst. split; assumption.
Qed.


Lemma dumps_list (lvl : nat) (x : value) (xs : list value) :
  Json.dumps_at lvl (VList (x :: xs))
  = ("[" ++ Json.newline_indent (S lvl) ++ Json.dumps_at (S lvl) x
     ++ Json.dump_items (S lvl) xs ++ Json.newline_indent lvl ++ "]")%string.
Proof. reflexivity. Qed.

Lemma dumps_dict (lvl : nat) (k : string) (x : value) (d : list (string * value)) :
  Json.dumps_at lvl (VDict ((k, x) :: d))
  = ("{" ++ Json.newline_indent (S lvl) ++ Json.encode_str k ++ ": "
     ++ Json.dumps_at (S lvl) x ++ Json.dump_members (S lvl) d
     ++ Json.newline_indent lvl ++ "}")%string.
Proof. reflexivity. Qed.

Lemma size_list (l : list value) : size (VList l) = S (sum_sizes l).
Proof. reflexivity. Qed.

Lemma size_dict (d : list (string * value)) : size (VDict d) = S (sum_member_sizes d).
Proof. reflexivity. Qed.

Lemma size_positive (v : value) : 1 <= size v.
Proof. destruct v; simpl; lia. Qed.

Lemma skip_ws_spaces (n : nat) (t : string) :
  Json.skip_ws (Json.spaces n ++ t)%string = Json.skip_ws t.
Proof. induction n as [|n IH]; [reflexivity | exact IH]. Qed.

Lemma skip_ws_newline_indent (lvl : nat) (t : string) :
  Json.skip_ws (Json.newline_indent lvl ++ t)%string = Json.skip_ws t.
Proof. unfold Json.newline_indent. cbn [String.append Json.skip_ws Json.is_ws].
  simpl. apply skip_ws_spaces. Qed.

Lemma skip_ws_opens (t : string) : Json.opens_value t = true -> Json.skip_ws t = t.
Proof.
  destruct t as [|c r]; [discriminate|]. simpl.
  intros H. apply andb_true_iff in H. destruct H as [H _].
  apply negb_true_iff in H. rewrite H. reflexivity.
Qed.

Lemma opens_value_append (s t : string) :
  Json.opens_value s = true -> Json.opens_value (s ++ t)%string = true.
Proof. destruct s; [discriminate | intros H; exact H]. Qed.

Lemma repr_int_opens (n : Z) : Json.opens_value (repr_int n) = true.
Proof.
  unfold repr_int. destruct n as [|p|p]; cbn [Z.to_int NilEmpty.string_of_int];
    try reflexivity.
  pose proof (to_uint_leading_nonzero p) as H.
  destruct (Pos.to_uint p); try discriminate H; reflexivity.
Qed.

Lemma dumps_opens (lvl : nat) (v : value) : Json.opens_value (Json.dumps_at lvl v) = true.
Proof.
  destruct v as [|[]|n|s|[|x l]|[|[k x] d]]; try reflexivity.
  apply repr_int_opens.
Qed.

Lemma ends_number_newline_indent (lvl : nat) (t : string) :
  Json.ends_number (Json.newline_indent lvl ++ t)%string = true.
Proof. reflexivity. Qed.

Lemma scan_once_array (fuel room : nat) (r : string) :
  Json.scan_once (S fuel) (S room) (String "[" r)
  = match Json.skip_ws r with
    | EmptyString => Json.Bad
    | String c' r' =>
        if Ascii.eqb c' "]" then Json.Got (VList []) r'
        else Json.elements fuel room (String c' r') []
    end.
Proof. reflexivity. Qed.

Lemma scan_once_object (fuel room : nat) (r : string) :
  Json.scan_once (S fuel) (S room) (String "{" r)
  = match Json.skip_ws r with
    | EmptyString => Json.Bad
    | String c' r' =>
        if Ascii.eqb c' "}" then Json.Got (VDict []) r'
        else if Ascii.eqb c' Json.dquote then Json.members fuel room r' []
        else Json.Bad
    end.
Proof. reflexivity. Qed.

(** With no room left, a bracket or a brace raises, whatever follows. *)
Lemma scan_once_no_room (fuel : nat) (c : ascii) (r : string) :
  c = "["%char \/ c = "{"%char ->
  Json.scan_once (S fuel) 0 (String c r) = Json.Raised RecursionError.
Proof. intros [-> | ->]; reflexivity. Qed.

Lemma elements_step (fuel room : nat) (s : string) (acc : list value) :
  Json.elements (S fuel) room s acc
  = Json.and_then (Json.scan_once fuel room s) (fun v rest =>
      match Json.skip_ws rest with
      | EmptyString => Json.Bad
      | String c r =>
          if Ascii.eqb c "]" then Json.Got (VList (acc ++ [v])) r
          else if Ascii.eqb c "," then
            Json.elements fuel room (Json.skip_ws r) (acc ++ [v])
          else Json.Bad
      end).
Proof. reflexivity. Qed.

Lemma members_step (fuel room : nat) (s : string) (acc : list (string * value)) :
  Json.members (S fuel) room s acc
  = Json.and_then (Json.scanstring s) (fun k rest =>
      match Json.skip_ws rest with
      | EmptyString => Json.Bad
      | String c r =>
          if Ascii.eqb c ":" then
            Json.and_then (Json.scan_once fuel room (Json.skip_ws r)) (fun v rest' =>
              match Json.skip_ws rest' with
              | EmptyString => Json.Bad
              | String c' r' =>
                  if Ascii.eqb c' "}" then
                    Json.Got (VDict (Json.dict_of_pairs (acc ++ [(k, v)]))) r'
                  else if Ascii.eqb c' "," then
                    match Json.skip_ws r' with
                    | EmptyString => Json.Bad
                    | String c'' r'' =>
                        if Ascii.eqb c'' Json.dquote
                        then Json.members fuel room r'' (acc ++ [(k, v)])
                        else Json.Bad
                    end
                  else Json.Bad
              end)
          else Json.Bad
      end).
Proof. reflexivity. Qed.

Lemma elements_dump_items (lvl lvl' room : nat) (rest : string) (xs : list value) :
  Forall (Json.readable room) xs ->
  forall (x : value) (acc : list value) (fuel : nat),
    Json.readable room x ->
    2 * (size x + sum_sizes xs) <= fuel ->
    Json.elements fuel room
      (Json.dumps_at lvl x ++ Json.dump_items lvl xs
       ++ Json.newline_indent lvl' ++ String "]" rest)%string acc
    = Json.Got (VList (acc ++ x :: xs)) rest.
Proof.
  intros HP. induction xs as [|y ys IH]; intros x acc fuel [Hx [Dx [Ix Rx]]] Hf.
  - destruct fuel as [|fuel]; [pose proof (size_positive x); lia|].
    rewrite elements_step. cbn [Json.dump_items String.append].
    rewrite (Hx Dx Ix)
      by (simpl in Hf; try lia; try exact Rx; apply ends_number_newline_indent).
    cbn [Json.and_then].
    rewrite skip_ws_newline_indent. reflexivity.
  - destruct fuel as [|fuel]; [pose proof (size_positive x); lia|].
    inversion HP as [|? ? Hy HP']; subst.
    pose proof (size_positive x) as Sx.
    cbn [sum_sizes] in Hf. fold sum_sizes in Hf.
    rewrite elements_step.
    change (Json.dump_items lvl (y :: ys))
      with ("," ++ Json.newline_indent lvl ++ Json.dumps_at lvl y ++ Json.dump_items lvl ys)%string.
    cbn [String.append].
    rewrite (Hx Dx Ix) by (try lia; try exact Rx; reflexivity).
    cbn [Json.and_then].
    cbn [Json.skip_ws Json.is_ws Ascii.eqb Bool.eqb orb]. cbn [Ascii.eqb Bool.eqb].
    rewrite !append_assoc, skip_ws_newline_indent.
    rewrite skip_ws_opens by (apply opens_value_append, dumps_opens).
    rewrite (IH HP' y (acc ++ [x]) fuel Hy) by lia.
    rewrite <- List.app_assoc. reflexivity.
Qed.

Lemma dict_set_fresh (k : string) (v : value) (d : list (string * value)) :
  ~ In k (map fst d) -> dict_set k v d = d ++ [(k, v)].
Proof.
  induction d as [|[k0 x0] d IH]; simpl; [reflexivity|].
  intros H. destruct (String.eqb k k0) eqn:E.
  - apply String.eqb_eq in E. subst. tauto.
  - rewrite IH by tauto. reflexivity.
Qed.

Lemma fold_dict_set_distinct (ps acc : list (string * value)) :
  NoDup (map fst (acc ++ ps)) ->
  fold_left (fun d kv => dict_set (fst kv) (snd kv) d) ps acc = acc ++ ps.
Proof.
  revert acc. induction ps as [|[k v] ps IH]; intros acc H; simpl.
  - rewrite List.app_nil_r. reflexivity.
  - rewrite dict_set_fresh.
    + rewrite IH; rewrite <- List.app_assoc; [reflexivity | exact H].
    + rewrite map_app in H. simpl in H. apply NoDup_remove_2 in H.
      intros Hin. apply H. apply in_or_app. left. exact Hin.
Qed.

Lemma dict_of_pairs_distinct (ps : list (string * value)) :
  NoDup (map fst ps) -> Json.dict_of_pairs ps = ps.
Proof. intros H. unfold Json.dict_of_pairs. rewrite fold_dict_set_distinct; auto. Qed.

Lemma members_dump_members (lvl lvl' room : nat) (rest : string)
    (d : list (string * value)) :
  Forall (fun kv => Json.readable room (snd kv)) d ->
  forall (k : string) (x : value) (acc : list (string * value)) (fuel : nat),
    Json.readable room x ->
    2 * (size x + sum_member_sizes d) <= fuel ->
    Json.members fuel room
      (Json.escape k
       ++ String Json.dquote
            (": " ++ Json.dumps_at lvl x ++ Json.dump_members lvl d
             ++ Json.newline_indent lvl' ++ String "}" rest))%string acc
    = Json.Got (VDict (Json.dict_of_pairs (acc ++ (k, x) :: d))) rest.
Proof.
  intros HP. induction d as [|[k' y] d IH]; intros k x acc fuel [Hx [Dx [Ix Rx]]] Hf.
  - destruct fuel as [|fuel]; [pose proof (size_positive x); lia|].
    rewrite members_step, scanstring_escape. cbn [Json.and_then].
    cbn [String.append Json.skip_ws Json.is_ws Ascii.eqb Bool.eqb orb Json.dump_members].
    rewrite skip_ws_opens by (apply opens_value_append, dumps_opens).
    rewrite (Hx Dx Ix)
      by (simpl in Hf; try lia; try exact Rx; apply ends_number_newline_indent).
    cbn [Json.and_then].
    rewrite skip_ws_newline_indent. reflexivity.
  - destruct fuel as [|fuel]; [pose proof (size_positive x); lia|].
    inversion HP as [|? ? Hy HP']; subst.
    cbn [snd] in Hy.
    pose proof (size_positive x) as Sx.
    cbn [sum_member_sizes] in Hf. fold sum_member_sizes in Hf.
    rewrite members_step, scanstring_escape. cbn [Json.and_then].
    change (Json.dump_members lvl ((k', y) :: d))
      with ("," ++ Json.newline_indent lvl ++ Json.encode_str k' ++ ": "
            ++ Json.dumps_at lvl y ++ Json.dump_members lvl d)%string.
    cbn [String.append Json.skip_ws Json.is_ws Ascii.eqb Bool.eqb orb].
    rewrite skip_ws_opens by (apply opens_value_append, dumps_opens).
    rewrite (Hx Dx Ix) by (try lia; try exact Rx; reflexivity).
    cbn [Json.and_then].
    cbn [Json.skip_ws Json.is_ws Ascii.eqb Bool.eqb orb].
    rewrite !append_assoc, skip_ws_newline_indent.
    unfold Json.encode_str.
    cbn [String.append Json.skip_ws Json.is_ws Ascii.eqb Bool.eqb orb Json.dquote].
    rewrite !append_assoc. cbn [String.append].
    pose proof (IH HP' k' y (acc ++ [(k, x)]) fuel Hy) as G.
    cbn [String.append] in G. rewrite G by lia.
    rewrite <- List.app_assoc. reflexivity.
Qed.

Lemma readable_items (room : nat) (l : list value) :
  Forall Json.reads_back l -> distinct_keys (VList l) ->
  ints_fit (VList l) = true -> depth (VList l) <= S room ->
  Forall (Json.readable room) l.
Proof.
  intros H D I R.
  apply distinct_keys_list in D. apply ints_fit_list in I. apply depth_list in R.
  induction H as [|x l Hx H IH]; constructor.
  - inversion D; inversion I; inversion R; subst. repeat split; assumption.
  - inversion D; inversion I; inversion R; subst. apply IH; assumption.
Qed.

Lemma readable_members (room : nat) (d : list (string * value)) :
  Forall (fun kv => Json.reads_back (snd kv)) d ->
  Forall (fun kv => distinct_keys (snd kv)) d ->
  ints_fit (VDict d) = true -> depth (VDict d) <= S room ->
  Forall (fun kv => Json.readable room (snd kv)) d.
Proof.
  intros H D I R.
  apply ints_fit_dict in I. apply depth_dict in R.
  induction H as [|x l Hx H IH]; constructor.
  - inversion D; inversion I; inversion R; subst. repeat split; assumption.
  - inversion D; inversion I; inversion R; subst. apply IH; assumption.
Qed.

Lemma dumps_reads_back (v : value) : Json.reads_back v.
Proof.
  induction v as [| b | n | s | l IH | d IH] using value_induction;
    intros D I lvl fuel room rest Hf Hd Hr.
  - destruct fuel; [simpl in Hf; lia | reflexivity].
  - destruct fuel; [simpl in Hf; lia | destruct b; reflexivity].
  - destruct fuel; [simpl in Hf; lia | apply scan_once_int; [exact I | exact Hr]].
  - destruct fuel; [simpl in Hf; lia|].
    cbn [Json.dumps_at]. unfold Json.encode_str. cbn [String.append].
    rewrite append_assoc. cbn [String.append].
    change (Json.scan_once (S fuel) room (String Json.dquote ?r))
      with (Json.and_then (Json.scanstring r) (fun x rest => Json.Got (VStr x) rest)).
    rewrite scanstring_escape. reflexivity.
  - destruct room as [|room]; [cbn [depth] in Hd; lia|].
    destruct l as [|x xs].
    + destruct fuel; [simpl in Hf; lia | reflexivity].
    + rewrite size_list in Hf. destruct fuel as [|fuel]; [lia|].
      pose proof (readable_items room _ IH D I Hd) as HR.
      inversion HR as [|? ? Hx HR']; subst.
      rewrite dumps_list. cbn [String.append]. rewrite scan_once_array.
      rewrite ?append_assoc, skip_ws_newline_indent. cbn [String.append].
      rewrite skip_ws_opens by (apply opens_value_append, dumps_opens).
      pose proof (dumps_opens (S lvl) x) as Ho.
      rewrite ?append_assoc.
      destruct (Json.dumps_at (S lvl) x) as [|c t] eqn:E; [discriminate Ho|].
      cbn [String.append]. simpl in Ho. apply andb_true_iff in Ho.
      destruct Ho as [_ Ho]. apply negb_true_iff in Ho. rewrite Ho.
      change (String c (t ++ ?r))%string with (String c t ++ r)%string.
      rewrite <- E.
      apply (elements_dump_items (S lvl) lvl room rest xs HR' x [] fuel Hx).
      cbn [sum_sizes] in Hf. fold sum_sizes in Hf. lia.
  - destruct room as [|room]; [cbn [depth] in Hd; lia|].
    destruct d as [|[k x] d].
    + destruct fuel; [simpl in Hf; lia | reflexivity].
    + rewrite size_dict in Hf. destruct fuel as [|fuel]; [lia|].
      apply distinct_keys_dict in D. destruct D as [Hn D].
      pose proof (readable_members room _ IH D I Hd) as HR.
      inversion HR as [|? ? Hx HR']; subst.
      cbn [snd] in Hx.
      rewrite dumps_dict. cbn [String.append]. rewrite scan_once_object.
      rewrite ?append_assoc, skip_ws_newline_indent.
      unfold Json.encode_str.
      cbn [String.append Json.skip_ws Json.is_ws Ascii.eqb Bool.eqb orb Json.dquote].
      rewrite ?append_assoc. cbn [String.append].
      pose proof (members_dump_members (S lvl) lvl room rest d HR' k x [] fuel Hx) as G.
      cbn [String.append] in G. rewrite G
        by (cbn [sum_member_sizes] in Hf; fold sum_member_sizes in Hf; lia).
      cbn [app]. rewrite dict_of_pairs_distinct by exact Hn. reflexivity.
Qed.

Lemma opens_value_length (s : string) : Json.opens_value s = true -> 1 <= String.length s.
Proof. destruct s; [discriminate | simpl; lia]. Qed.

Lemma size_le_length (v : value) :
  forall lvl : nat, size v <= String.length (Json.dumps_at lvl v).
Proof.
  induction v as [| b | n | s | l IH | d IH] using value_induction; intros lvl;
    try (apply opens_value_length, dumps_opens).
  - destruct l as [|x xs]; [simpl; lia|].
    rewrite dumps_list, size_list. cbn [sum_sizes]. fold sum_sizes.
    rewrite !length_append. cbn [String.length].
    inversion IH as [|? ? Hx IH']; subst.
    specialize (Hx (S lvl)).
    assert (G : sum_sizes xs <= String.length (Json.dump_items (S lvl) xs)).
    { clear Hx IH. induction IH' as [|y ys Hy _ IHys]; [simpl; lia|].
      change (Json.dump_items (S lvl) (y :: ys))
        with ("," ++ Json.newline_indent (S lvl) ++ Json.dumps_at (S lvl) y
              ++ Json.dump_items (S lvl) ys)%string.
      cbn [sum_sizes]. fold sum_sizes. rewrite !length_append.
      specialize (Hy (S lvl)). lia. }
    lia.
  - destruct d as [|[k x] d]; [simpl; lia|].
    rewrite dumps_dict, size_dict. cbn [sum_member_sizes]. fold sum_member_sizes.
    rewrite !length_append. cbn [String.length].
    inversion IH as [|? ? Hx IH']; subst. simpl in Hx.
    specialize (Hx (S lvl)).
    assert (G : sum_member_sizes d <= String.length (Json.dump_members (S lvl) d)).
    { clear Hx IH. induction IH' as [|[k' y] ys Hy _ IHys]; [simpl; lia|].
      change (Json.dump_members (S lvl) ((k', y) :: ys))
        with ("," ++ Json.newline_indent (S lvl) ++ Json.encode_str k' ++ ": "
              ++ Json.dumps_at (S lvl) y ++ Json.dump_members (S lvl) ys)%string.
      cbn [sum_member_sizes]. fold sum_member_sizes. rewrite !length_append.
      simpl in Hy. specialize (Hy (S lvl)). lia. }
    lia.
Qed.

(** *** The fuel of the scan *)

Lemma skip_ws_length (s : string) : String.length (Json.skip_ws s) <= String.length s.
Proof.
  induction s as [|c r IH]; simpl; [lia|].
  destruct (Json.is_ws c); simpl; lia.
Qed.

Lemma skip_length (n : nat) (s : string) :
  n <= String.length s -> String.length (Json.skip n s) + n = String.length s.
Proof.
  revert s. induction n as [|n IH]; intros s H.
  - destruct s; simpl; lia.
  - destruct s as [|c r]; simpl in *; [lia|].
    rewrite <- (IH r) by lia. lia.
Qed.

Lemma startswith_length (p s : string) :
  startswith p s = true -> String.length p <= String.length s.
Proof.
  revert s. induction p as [|a p IH]; intros s H; simpl; [lia|].
  destruct s as [|b s]; simpl in *; [discriminate|].
  apply andb_true_iff in H. destruct H as [_ H]. apply IH in H. lia.
Qed.

Lemma scanstring_shortens (s rest k : string) :
  Json.scanstring s = Json.Got k rest -> String.length rest < String.length s.
Proof.
  remember (String.length s) as n eqn:En. revert s k rest En.
  induction n as [n IH] using lt_wf_ind. intros s k rest En H.
  destruct s as [|c r]; [discriminate|].
  cbn [Json.scanstring] in H. simpl in En.
  destruct (Ascii.eqb c Json.dquote).
  { injection H as <- <-. lia. }
  destruct (Ascii.eqb c Json.backslash).
  - destruct r as [|e r']; [discriminate|].
    destruct (Ascii.eqb e "u").
    + destruct r' as [|h1 [|h2 [|h3 [|h4 r'']]]]; try discriminate.
      destruct (Json.hex4 h1 h2 h3 h4) as [m|]; [|discriminate].
      destruct (m <? 256)%N; [|discriminate].
      unfold Json.cons_char in H.
      destruct (Json.scanstring r'') as [k' rest'| | | |] eqn:E; try discriminate.
      cbn [Json.and_then] in H. injection H as <- <-.
      apply (IH (String.length r'')) in E; simpl in *; lia.
    + destruct (Json.unescape e); [|discriminate].
      unfold Json.cons_char in H.
      destruct (Json.scanstring r') as [k' rest'| | | |] eqn:E; try discriminate.
      cbn [Json.and_then] in H. injection H as <- <-.
      apply (IH (String.length r')) in E; simpl in *; lia.
  - destruct (ord c <? 32)%N; [discriminate|].
    unfold Json.cons_char in H.
    destruct (Json.scanstring r) as [k' rest'| | | |] eqn:E; try discriminate.
    cbn [Json.and_then] in H. injection H as <- <-.
    apply (IH (String.length r)) in E; simpl in *; lia.
Qed.

Lemma scanstring_has_fuel (s : string) : Json.scanstring s <> Json.Exhausted.
Proof.
  remember (String.length s) as n eqn:En. revert s En.
  induction n as [n IH] using lt_wf_ind. intros s En.
  assert (C : forall c r, String.length r < n ->
              Json.cons_char c (Json.scanstring r) <> Json.Exhausted).
  { intros c r Hr. specialize (IH _ Hr r eq_refl).
    unfold Json.cons_char. destruct (Json.scanstring r); simpl; congruence. }
  destruct s as [|c r]; [discriminate|].
  cbn [Json.scanstring]. simpl in En.
  destruct (Ascii.eqb c Json.dquote); [discriminate|].
  destruct (Ascii.eqb c Json.backslash).
  - destruct r as [|e r']; [discriminate|].
    destruct (Ascii.eqb e "u").
    + destruct r' as [|h1 [|h2 [|h3 [|h4 r'']]]]; try discriminate.
      destruct (Json.hex4 h1 h2 h3 h4) as [m|]; [|discriminate].
      destruct (m <? 256)%N; [|discriminate].
      apply C. simpl in *. lia.
    + destruct (Json.unescape e); [|discriminate]. apply C. simpl in *. lia.
  - destruct (ord c <? 32)%N; [discriminate|]. apply C. lia.
Qed.

Lemma scan_digits_length (s : string) :
  String.length (snd (Json.scan_digits s)) <= String.length s.
Proof.
  induction s as [|c r IH]; simpl; [lia|].
  destruct (Json.digit_of c); [|simpl; lia].
  destruct (Json.scan_digits r). simpl in *. lia.
Qed.

Lemma scan_intpart_shortens (s rest : string) (u : Decimal.uint) :
  Json.scan_intpart s = Some (u, rest) -> String.length rest < String.length s.
Proof.
  destruct s as [|c r]; [discriminate|].
  unfold Json.scan_intpart.
  destruct (Ascii.eqb c "0"); [intros H; injection H as <- <-; simpl; lia|].
  unfold Json.is_digit. destruct (Json.digit_of c) eqn:E; [|discriminate].
  cbn [Json.scan_digits]. rewrite E.
  pose proof (scan_digits_length r) as L.
  destruct (Json.scan_digits r) as [u' rest']. intros H. injection H as <- <-.
  simpl in *. lia.
Qed.

Lemma scan_number_shortens (s rest : string) (v : value) :
  Json.scan_number s = Json.Got v rest -> String.length rest < String.length s.
Proof.
  assert (G : forall s rest v,
             match Json.scan_intpart s with
             | Some (u, rest0) =>
                 if Json.has_frac rest0 || Json.has_exp rest0 then Json.Beyond
                 else if Json.too_long u then Json.Raised ValueError
                 else Json.Got (VInt (Z.of_uint u)) rest0
             | None => @Json.Bad value
             end = Json.Got v rest -> String.length rest < String.length s).
  { intros s0 rest0 v0. destruct (Json.scan_intpart s0) as [[u r0]|] eqn:E; [|discriminate].
    destruct (Json.has_frac r0 || Json.has_exp r0); [discriminate|].
    destruct (Json.too_long u); [discriminate|].
    intros H. injection H as <- <-. eapply scan_intpart_shortens; eauto. }
  unfold Json.scan_number.
  destruct s as [|c r]; [discriminate|].
  destruct (Ascii.eqb c "-") eqn:Ec.
  - apply Ascii.eqb_eq in Ec. subst c.
    destruct (Json.scan_intpart r) as [[u r0]|] eqn:E.
    + destruct (Json.has_frac r0 || Json.has_exp r0); [discriminate|].
      destruct (Json.too_long u); [discriminate|].
      intros H. injection H as <- <-. apply scan_intpart_shortens in E. simpl. lia.
    + destruct (startswith "-Infinity" (String "-" r)); discriminate.
  - intros H. apply (G (String c r) rest v).
    revert H. destruct c as [[] [] [] [] [] [] [] []]; try discriminate Ec;
      (destruct (Json.scan_intpart _) as [[u r0]|];
       [exact (fun H => H)
       | destruct (startswith "NaN" _ || startswith "Infinity" _); discriminate]).
Qed.

Lemma scan_once_unfold (fuel room : nat) (c : ascii) (r : string) :
  Json.scan_once (S fuel) room (String c r)
  = if Ascii.eqb c Json.dquote then
      Json.and_then (Json.scanstring r) (fun x rest => Json.Got (VStr x) rest)
    else if Ascii.eqb c "{" then
      match room with
      | O => Json.Raised RecursionError
      | S room' =>
          match Json.skip_ws r with
          | EmptyString => Json.Bad
          | String c' r' =>
              if Ascii.eqb c' "}" then Json.Got (VDict []) r'
              else if Ascii.eqb c' Json.dquote then Json.members fuel room' r' []
              else Json.Bad
          end
      end
    else if Ascii.eqb c "[" then
      match room with
      | O => Json.Raised RecursionError
      | S room' =>
          match Json.skip_ws r with
          | EmptyString => Json.Bad
          | String c' r' =>
              if Ascii.eqb c' "]" then Json.Got (VList []) r'
              else Json.elements fuel room' (String c' r') []
          end
      end
    else if startswith "null" (String c r) then Json.Got VNone (Json.skip 4 (String c r))
    else if startswith "true" (String c r) then Json.Got (VBool true) (Json.skip 4 (String c r))
    else if startswith "false" (String c r) then Json.Got (VBool false) (Json.skip 5 (String c r))
    else Json.scan_number (String c r).
Proof. reflexivity. Qed.

Lemma literal_shortens (p s : string) (n : nat) :
  startswith p s = true -> String.length p = n -> 0 < n ->
  String.length (Json.skip n s) < String.length s.
Proof.
  intros H E Hn. apply startswith_length in H.
  pose proof (skip_length n s) as L. lia.
Qed.

(** A scan that gives a value has read at least one character. *)
Lemma scan_shortens (fuel : nat) :
  (forall room s v rest, Json.scan_once fuel room s = Json.Got v rest ->
                         String.length rest < String.length s)
  /\ (forall room s acc v rest, Json.elements fuel room s acc = Json.Got v rest ->
                                String.length rest < String.length s)
  /\ (forall room s acc v rest, Json.members fuel room s acc = Json.Got v rest ->
                                String.length rest < String.length s).
Proof.
  induction fuel as [|fuel [IHo [IHe IHm]]].
  { repeat split; intros; discriminate. }
  split; [|split].
  - intros room s v rest H. destruct s as [|c r]; [discriminate|].
    rewrite scan_once_unfold in H.
    destruct (Ascii.eqb c Json.dquote).
    { destruct (Json.scanstring r) as [x rest'| | | |] eqn:E; try discriminate.
      cbn [Json.and_then] in H. injection H as <- <-.
      apply scanstring_shortens in E. simpl. lia. }
    destruct (Ascii.eqb c "{").
    { destruct room as [|room]; [discriminate|].
      pose proof (skip_ws_length r) as L.
      destruct (Json.skip_ws r) as [|c' r']; [discriminate|]. simpl in L.
      destruct (Ascii.eqb c' "}"); [injection H as <- <-; simpl; lia|].
      destruct (Ascii.eqb c' Json.dquote); [|discriminate].
      apply IHm in H. simpl. lia. }
    destruct (Ascii.eqb c "[").
    { destruct room as [|room]; [discriminate|].
      pose proof (skip_ws_length r) as L.
      destruct (Json.skip_ws r) as [|c' r']; [discriminate|]. simpl in L.
      destruct (Ascii.eqb c' "]"); [injection H as <- <-; simpl; lia|].
      apply IHe in H. simpl in *. lia. }
    destruct (startswith "null" (String c r)) eqn:E1.
    { replace rest with (Json.skip 4 (String c r)) by congruence.
      apply (literal_shortens "null"); [exact E1 | reflexivity | lia]. }
    destruct (startswith "true" (String c r)) eqn:E2.
    { replace rest with (Json.skip 4 (String c r)) by congruence.
      apply (literal_shortens "true"); [exact E2 | reflexivity | lia]. }
    destruct (startswith "false" (String c r)) eqn:E3.
    { replace rest with (Json.skip 5 (String c r)) by congruence.
      apply (literal_shortens "false"); [exact E3 | reflexivity | lia]. }
    eapply scan_number_shortens; eauto.
  - intros room s acc v rest H. rewrite elements_step in H.
    destruct (Json.scan_once fuel room s) as [v0 rest0| | | |] eqn:E; try discriminate.
    cbn [Json.and_then] in H. apply IHo in E.
    pose proof (skip_ws_length rest0) as L.
    destruct (Json.skip_ws rest0) as [|c r]; [discriminate|]. simpl in L.
    destruct (Ascii.eqb c "]"); [injection H as <- <-; lia|].
    destruct (Ascii.eqb c ","); [|discriminate].
    apply IHe in H. pose proof (skip_ws_length r). lia.
  - intros room s acc v rest H. rewrite members_step in H.
    destruct (Json.scanstring s) as [k rest0| | | |] eqn:E; try discriminate.
    cbn [Json.and_then] in H. apply scanstring_shortens in E.
    pose proof (skip_ws_length rest0) as L.
    destruct (Json.skip_ws rest0) as [|c r]; [discriminate|]. simpl in L.
    destruct (Ascii.eqb c ":"); [|discriminate].
    destruct (Json.scan_once fuel room (Json.skip_ws r)) as [v0 rest1| | | |] eqn:E1;
      try discriminate.
    cbn [Json.and_then] in H. apply IHo in E1.
    pose proof (skip_ws_length r) as L0.
    pose proof (skip_ws_length rest1) as L1.
    destruct (Json.skip_ws rest1) as [|c' r']; [discriminate|]. simpl in L1.
    destruct (Ascii.eqb c' "}"); [injection H as <- <-; lia|].
    destruct (Ascii.eqb c' ","); [|discriminate].
    pose proof (skip_ws_length r') as L2.
    destruct (Json.skip_ws r') as [|c'' r'']; [discriminate|]. simpl in L2.
    destruct (Ascii.eqb c'' Json.dquote); [|discriminate].
    apply IHm in H. lia.
Qed.

Lemma scan_number_has_fuel (s : string) : Json.scan_number s <> Json.Exhausted.
Proof.
  unfold Json.scan_number.
  destruct s as [|c r].
  - simpl. discriminate.
  - destruct c as [[] [] [] [] [] [] [] []];
      repeat match goal with
             | |- context [match ?x with _ => _ end] => destruct x
             end; discriminate.
Qed.

(** Twice the length of the text and one is fuel enough for a value,
    and one more for the items of an array or the members of an
    object. *)
Lemma scan_has_fuel (fuel : nat) :
  (forall room s, 2 * String.length s < fuel ->
                  Json.scan_once fuel room s <> Json.Exhausted)
  /\ (forall room s acc, 2 * String.length s + 1 < fuel ->
                         Json.elements fuel room s acc <> Json.Exhausted)
  /\ (forall room s acc, 2 * String.length s + 1 < fuel ->
                         Json.members fuel room s acc <> Json.Exhausted).
Proof.
  induction fuel as [|fuel [IHo [IHe IHm]]].
  { repeat split; intros; lia. }
  split; [|split].
  - intros room s Hf. destruct s as [|c r]; [discriminate|].
    rewrite scan_once_unfold. simpl in Hf.
    destruct (Ascii.eqb c Json.dquote).
    { pose proof (scanstring_has_fuel r).
      destruct (Json.scanstring r); simpl; congruence. }
    destruct (Ascii.eqb c "{").
    { destruct room as [|room]; [discriminate|].
      pose proof (skip_ws_length r) as L.
      destruct (Json.skip_ws r) as [|c' r']; [discriminate|]. simpl in L.
      destruct (Ascii.eqb c' "}"); [discriminate|].
      destruct (Ascii.eqb c' Json.dquote); [|discriminate].
      apply IHm. lia. }
    destruct (Ascii.eqb c "[").
    { destruct room as [|room]; [discriminate|].
      pose proof (skip_ws_length r) as L.
      destruct (Json.skip_ws r) as [|c' r']; [discriminate|]. simpl in L.
      destruct (Ascii.eqb c' "]"); [discriminate|].
      apply IHe. simpl. lia. }
    destruct (startswith "null" (String c r)); [discriminate|].
    destruct (startswith "true" (String c r)); [discriminate|].
    destruct (startswith "false" (String c r)); [discriminate|].
    apply scan_number_has_fuel.
  - intros room s acc Hf. rewrite elements_step.
    destruct (Json.scan_once fuel room s) as [v0 rest0| | | |] eqn:E;
      cbn [Json.and_then]; try discriminate.
    + apply (proj1 (scan_shortens fuel) room) in E.
      pose proof (skip_ws_length rest0) as L.
      destruct (Json.skip_ws rest0) as [|c r]; [discriminate|]. simpl in L.
      destruct (Ascii.eqb c "]"); [discriminate|].
      destruct (Ascii.eqb c ","); [|discriminate].
      apply IHe. pose proof (skip_ws_length r). lia.
    + exfalso. revert E. apply IHo. lia.
  - intros room s acc Hf. rewrite members_step.
    pose proof (scanstring_has_fuel s) as Hs.
    destruct (Json.scanstring s) as [k rest0| | | |] eqn:E;
      cbn [Json.and_then]; try discriminate; [|congruence].
    apply scanstring_shortens in E.
    pose proof (skip_ws_length rest0) as L.
    destruct (Json.skip_ws rest0) as [|c r]; [discriminate|]. simpl in L.
    destruct (Ascii.eqb c ":"); [|discriminate].
    pose proof (skip_ws_length r) as L0.
    destruct (Json.scan_once fuel room (Json.skip_ws r)) as [v0 rest1| | | |] eqn:E1;
      cbn [Json.and_then]; try discriminate.
    + apply (proj1 (scan_shortens fuel) room) in E1.
      pose proof (skip_ws_length rest1) as L1.
      destruct (Json.skip_ws rest1) as [|c' r']; [discriminate|]. simpl in L1.
      destruct (Ascii.eqb c' "}"); [discriminate|].
      destruct (Ascii.eqb c' ","); [|discriminate].
      pose proof (skip_ws_length r') as L2.
      destruct (Json.skip_ws r') as [|c'' r'']; [discriminate|]. simpl in L2.
      destruct (Ascii.eqb c'' Json.dquote); [|discriminate].
      apply IHm. lia.
    + exfalso. revert E1. apply IHo. lia.
Qed.

Lemma scan_once_has_fuel (room : nat) (s : string) :
  Json.scan_once (2 * String.length s + 1) room (Json.skip_ws s) <> Json.Exhausted.
Proof.
  apply (proj1 (scan_has_fuel _)). pose proof (skip_ws_length s). lia.
Qed.

(** [json.loads] gives no answer only on a text that holds what the
    model leaves out. *)
Lemma loads_not_modelled (room : nat) (s : string) :
  Json.loads room s = Json.NotModelled ->
  Json.scan_once (2 * String.length s + 1) room (Json.skip_ws s) = Json.Beyond.
Proof.
  unfold Json.loads. pose proof (scan_once_has_fuel room s) as F.
  destruct (Json.scan_once (2 * String.length s + 1) room (Json.skip_ws s))
    as [v rest| | | |]; try congruence.
  destruct (Json.skip_ws rest); discriminate.
Qed.

(** What [json.dump] writes, [json.load] reads back, given room for the
    nesting of the value and integers that [int] accepts. *)
Lemma loads_dumps (room : nat) (v : value) :
  distinct_keys v -> ints_fit v = true -> depth v <= room ->
  Json.loads room (Json.dumps v) = Json.Value v.
Proof.
  intros D I R. unfold Json.loads, Json.dumps.
  rewrite skip_ws_opens by apply dumps_opens.
  rewrite <- (append_nil_r (Json.dumps_at 0 v)) at 2.
  rewrite (dumps_reads_back v D I 0 _ room EmptyString);
    [reflexivity | | exact R | reflexivity].
  pose proof (size_le_length v 0). lia.
Qed.

(** A text that opens more arrays than there is room for raises
    [RecursionError], whatever comes after the brackets. *)
Lemma scan_once_brackets (room : nat) :
  forall (fuel : nat) (rest : string),
    2 * room < fuel ->
    Json.scan_once fuel room (brackets (S room) ++ rest)%string
    = Json.Raised RecursionError.
Proof.
  induction room as [|room IH]; intros fuel rest Hf.
  - destruct fuel as [|fuel]; [lia | reflexivity].
  - destruct fuel as [|[|fuel]]; try lia.
    cbn [brackets String.append]. rewrite scan_once_array.
    change (brackets room ++ rest)%string
      with (brackets room ++ rest)%string.
    cbn [Json.skip_ws Json.is_ws Ascii.eqb Bool.eqb orb].
    rewrite elements_step.
    change (String "[" (brackets room ++ rest)%string)
      with (brackets (S room) ++ rest)%string.
    rewrite IH by lia. reflexivity.
Qed.

Lemma length_brackets (n : nat) : String.length (brackets n) = n.
Proof. induction n as [|n IH]; [reflexivity | simpl; rewrite IH; reflexivity]. Qed.

Lemma loads_brackets (room : nat) (rest : string) :
  Json.loads room (brackets (S room) ++ rest)%string = Json.Raises RecursionError.
Proof.
  unfold Json.loads.
  replace (Json.skip_ws (brackets (S room) ++ rest)%string)
    with (brackets (S room) ++ rest)%string by reflexivity.
  rewrite scan_once_brackets; [reflexivity|].
  rewrite length_append, length_brackets. lia.
Qed.

(** Whatever value [json.dump] writes, with any nesting of lists and
    dicts, [json.load] reads the same value back from the text, when
    the interpreter has room for the nesting and no integer of the
    value has more than 4300 digits. *)
Theorem json_load_inverts_json_dump (room : nat) (v : value) :
  distinct_keys v -> ints_fit v = true -> depth v <= room ->
  Json.loads room (Json.dumps v) = Json.Value v.
Proof. exact (loads_dumps room v). Qed.

Lemma json_load_inverts_json_dump_witness :
  Json.loads 3
    (Json.dumps (VList [VDict [("title", VStr "Dune"); ("tags", VList [VNone; VInt (-3)])];
                        VBool false]))
  = Json.Value (VList [VDict [("title", VStr "Dune"); ("tags", VList [VNone; VInt (-3)])];
                       VBool false]).
Proof.
  apply (json_load_inverts_json_dump 3
           (VList [VDict [("title", VStr "Dune"); ("tags", VList [VNone; VInt (-3)])];
                   VBool false])).
  - simpl. repeat split.
    repeat constructor; simpl; intuition discriminate.
  - reflexivity.
  - cbn [depth Nat.max]. lia.
Defined.

(** ** The file of the store: what is saved, and loaded again *)

Lemma library_value_distinct (bs : list Book) : distinct_keys (library_value bs).
Proof. apply distinct_keys_list, library_value_distinct_keys. Qed.

(** A store of books nests an object in an array. *)
Lemma depth_library (bs : list Book) : depth (library_value bs) <= 2.
Proof.
  apply depth_list. induction bs as [|b bs IH]; cbn [map]; constructor;
    [cbn; lia | exact IH].
Qed.

Lemma ints_fit_library (bs : list Book) :
  Forall (fun b => int_fits (year b) = true) bs ->
  ints_fit (library_value bs) = true.
Proof.
  intros H. apply ints_fit_list.
  induction H as [|b bs Hb H IH]; cbn [map]; constructor; [|exact IH].
  cbn [book_value ints_fit]. rewrite Hb. reflexivity.
Qed.

(** A number has no more digits in base 10 than in base 2. *)
Lemma nb_digits_double (d : Decimal.uint) :
  Decimal.nb_digits (Decimal.Little.double d) <= S (Decimal.nb_digits d)
  /\ Decimal.nb_digits (Decimal.Little.succ_double d) <= S (Decimal.nb_digits d).
Proof.
  induction d as [|d [IH1 IH2]|d [IH1 IH2]|d [IH1 IH2]|d [IH1 IH2]|d [IH1 IH2]
                  |d [IH1 IH2]|d [IH1 IH2]|d [IH1 IH2]|d [IH1 IH2]|d [IH1 IH2]];
    cbn [Decimal.Little.double Decimal.Little.succ_double Decimal.nb_digits];
    split; lia.
Qed.

Lemma nb_digits_to_uint (p : positive) :
  Decimal.nb_digits (Pos.to_uint p) <= Pos.size_nat p.
Proof.
  unfold Pos.to_uint. rewrite DecimalFacts.nb_digits_rev.
  induction p as [p IH|p IH|]; cbn [Pos.to_little_uint Pos.size_nat].
  - pose proof (proj2 (nb_digits_double (Pos.to_little_uint p))). lia.
  - pose proof (proj1 (nb_digits_double (Pos.to_little_uint p))). lia.
  - cbn. lia.
Qed.

(** A year of the range of the number input has few digits. *)
Lemma year_in_range_fits (y : Z) : (1 <= y <= 2025)%Z -> int_fits y = true.
Proof.
  intros H. unfold int_fits, int_digits, int_max_str_digits.
  destruct y as [|p|p]; try lia. cbn [Z.to_int].
  apply N.leb_le.
  pose proof (nb_digits_to_uint p) as D.
  assert (S : Pos.size_nat p <= Pos.size_nat 2048).
  { apply Pos.size_nat_monotone. lia. }
  cbn [Pos.size_nat] in S. lia.
Qed.

Lemma valid_books_fit (bs : list Book) :
  Forall valid_book bs -> Forall (fun b => int_fits (year b) = true) bs.
Proof.
  intros H. induction H as [|b bs [_ [_ [_ Hy]]] H IH]; constructor;
    [apply year_in_range_fits, Hy | exact IH].
Qed.

Lemma load_library_stores_the_decoded_value
    (room : nat) (lib v : value) (text : string) (pg : list event) :
  Json.loads room text = Json.Value v ->
  load_library (Reads room) (mkState lib (Some text) pg)
  = Some (Ok (mkState v (Some text) (pg ++ [St_success "Library loaded from file."]))).
Proof. intros H. unfold load_library. cbn [library_file]. rewrite H. reflexivity. Qed.

Lemma loads_library (room : nat) (bs : list Book) :
  2 <= room -> Forall (fun b => int_fits (year b) = true) bs ->
  Json.loads room (Json.dumps (library_value bs)) = Json.Value (library_value bs).
Proof.
  intros R F. apply loads_dumps.
  - apply library_value_distinct.
  - apply ints_fit_library, F.
  - pose proof (depth_library bs). lia.
Qed.

(** C1.  Whatever the store holds when the file is read, loading the
    file that [save_library] wrote for a store of books gives that
    store: the same books, in the same order, field by field
    ([library_value] is injective, see [library_value_injective]).  The
    interpreter has room for the two levels of the file, and the years
    are integers that [int] accepts (no more than 4300 digits, as every
    year from 1 to 2025 is, see [year_in_range_fits]). *)
Theorem save_then_load_restores_the_library
    (bs : list Book) (f : option string) (pg pg' : list event)
    (lib : value) (room : nat) :
  2 <= room -> Forall (fun b => int_fits (year b) = true) bs ->
  load_library (Reads room)
    (mkState lib
       (library_file (save_library Written (mkState (library_value bs) f pg))) pg')
  = Some (Ok (mkState (library_value bs) (Some (Json.dumps (library_value bs)))
                (pg' ++ [St_success "Library loaded from file."]))).
Proof.
  intros R F. unfold save_library. cbn [library_file show set_file library].
  apply load_library_stores_the_decoded_value, loads_library; assumption.
Qed.

Lemma save_then_load_restores_the_library_witness :
  load_library (Reads 2)
    (mkState (VList [])
       (library_file
          (save_library Written
             (mkState (library_value [mkBook "Dune" "Frank Herbert" 1965 "SciFi" true;
                                      mkBook "Emma" "Jane Austen" 1815 "Novel" false])
                (Some "[]") [])))
       [])
  = Some (Ok (mkState
                (library_value [mkBook "Dune" "Frank Herbert" 1965 "SciFi" true;
                                mkBook "Emma" "Jane Austen" 1815 "Novel" false])
                (Some (Json.dumps
                         (library_value [mkBook "Dune" "Frank Herbert" 1965 "SciFi" true;
                                         mkBook "Emma" "Jane Austen" 1815 "Novel" false])))
                ([] ++ [St_success "Library loaded from file."]))).
Proof.
  apply (save_then_load_restores_the_library
           [mkBook "Dune" "Frank Herbert" 1965 "SciFi" true;
            mkBook "Emma" "Jane Austen" 1815 "Novel" false]
           (Some "[]") [] [] (VList []) 2).
  - lia.
  - repeat constructor.
Defined.

Lemma book_value_injective (a b : Book) : book_value a = book_value b -> a = b.
Proof. destruct a, b. unfold book_value. simpl. intros H. injection H as -> -> -> -> ->. reflexivity. Qed.

Lemma library_value_injective (bs bs' : list Book) :
  library_value bs = library_value bs' -> bs = bs'.
Proof.
  unfold library_value. intros H. injection H as H. revert bs' H.
  induction bs as [|b bs IH]; intros [|b' bs'] H; try discriminate; [reflexivity|].
  cbn [map] in H.
  assert (Hb : book_value b = book_value b') by congruence.
  assert (Ht : map book_value bs = map book_value bs') by congruence.
  f_equal; [apply book_value_injective, Hb | apply IH, Ht].
Qed.

(** *** The encoder writes the strings and the integers of JSON *)

Lemma encode_char_json_char (c : ascii) : Json.encode_char c = json_char c.
Proof. destruct c as [[] [] [] [] [] [] [] []]; reflexivity. Qed.

Lemma escape_json_chars (s : string) : Json.escape s = json_chars s.
Proof.
  induction s as [|c s IH]; [reflexivity|].
  cbn [Json.escape json_chars]. rewrite encode_char_json_char, IH. reflexivity.
Qed.

Lemma encode_str_json_string (s : string) : Json.encode_str s = json_string s.
Proof. unfold Json.encode_str, json_string, quoted. rewrite escape_json_chars. reflexivity. Qed.

Lemma below_ten (d : N) :
  (d < 10)%N ->
  d = 0%N \/ d = 1%N \/ d = 2%N \/ d = 3%N \/ d = 4%N \/ d = 5%N \/ d = 6%N
  \/ d = 7%N \/ d = 8%N \/ d = 9%N.
Proof. lia. Qed.

Lemma string_of_digit (d : N) (u : Decimal.uint) :
  (d < 10)%N ->
  NilEmpty.string_of_uint (digit d u) = String (digit_char d) (NilEmpty.string_of_uint u).
Proof.
  intros H. apply below_ten in H.
  repeat (destruct H as [-> | H]; [reflexivity|]). subst. reflexivity.
Qed.

Lemma revapp_digit (d : N) (l a : Decimal.uint) :
  (d < 10)%N ->
  Decimal.revapp (digit d l) a = Decimal.revapp l (digit d a).
Proof.
  intros H. apply below_ten in H.
  repeat (destruct H as [-> | H]; [reflexivity|]). subst. reflexivity.
Qed.

Lemma of_lu_digit (d : N) (l : Decimal.uint) :
  (d < 10)%N ->
  DecimalPos.Unsigned.of_lu (digit d l) = (d + 10 * DecimalPos.Unsigned.of_lu l)%N.
Proof.
  intros H. apply below_ten in H.
  repeat (destruct H as [-> | H]; [reflexivity|]). subst. reflexivity.
Qed.

Lemma nzhead_digit (d : N) (a : Decimal.uint) :
  (0 < d < 10)%N -> Decimal.nzhead (digit d a) = digit d a.
Proof.
  intros [H0 H]. apply below_ten in H.
  destruct H as [-> | H]; [lia|].
  repeat (destruct H as [-> | H]; [reflexivity|]). subst. reflexivity.
Qed.

(** What [digits_before] writes are the digits of [last_first], the
    first one first. *)
Lemma digits_before_last_first (fuel : nat) :
  forall (n : N) (a : Decimal.uint),
    digits_before fuel n (NilEmpty.string_of_uint a)
    = NilEmpty.string_of_uint (Decimal.revapp (last_first fuel n) a).
Proof.
  induction fuel as [|fuel IH]; intros n a; [reflexivity|].
  cbn [digits_before last_first].
  assert (M : (n mod 10 < 10)%N) by (apply N.mod_lt; discriminate).
  rewrite <- (string_of_digit _ _ M).
  destruct (n <? 10)%N eqn:E.
  - apply N.ltb_lt in E. rewrite N.mod_small by exact E.
    rewrite revapp_digit by exact E. reflexivity.
  - rewrite IH, revapp_digit by exact M. reflexivity.
Qed.

Lemma of_lu_last_first (fuel : nat) :
  forall n : N, (n < 2 ^ N.of_nat fuel)%N ->
    DecimalPos.Unsigned.of_lu (last_first fuel n) = n.
Proof.
  induction fuel as [|fuel IH]; intros n H.
  - cbn in H. cbn. lia.
  - cbn [last_first]. destruct (n <? 10)%N eqn:E.
    + apply N.ltb_lt in E. rewrite of_lu_digit by exact E. cbn. lia.
    + assert (M : (n mod 10 < 10)%N) by (apply N.mod_lt; discriminate).
      rewrite of_lu_digit by exact M. rewrite IH.
      * symmetry. rewrite N.add_comm. apply N.div_mod. discriminate.
      * rewrite Nat2N.inj_succ, N.pow_succ_r' in H.
        apply N.Div0.div_lt_upper_bound. lia.
Qed.

Lemma nzhead_last_first (fuel : nat) :
  forall (n : N) (a : Decimal.uint),
    (0 < n < 2 ^ N.of_nat fuel)%N ->
    Decimal.nzhead (Decimal.revapp (last_first fuel n) a)
    = Decimal.revapp (last_first fuel n) a.
Proof.
  induction fuel as [|fuel IH]; intros n a [H0 H].
  - cbn in H. lia.
  - cbn [last_first]. destruct (n <? 10)%N eqn:E.
    + apply N.ltb_lt in E. rewrite revapp_digit by exact E. cbn [Decimal.revapp].
      apply nzhead_digit. lia.
    + apply N.ltb_ge in E.
      rewrite revapp_digit by (apply N.mod_lt; discriminate). apply IH.
      rewrite Nat2N.inj_succ, N.pow_succ_r' in H. split.
      * apply N.div_str_pos. lia.
      * apply N.Div0.div_lt_upper_bound. lia.
Qed.

Lemma to_uint_last_first (fuel : nat) (p : positive) :
  (N.pos p < 2 ^ N.of_nat fuel)%N ->
  Pos.to_uint p = Decimal.rev (last_first fuel (N.pos p)).
Proof.
  intros H.
  pose proof (DecimalPos.Unsigned.to_of (Decimal.rev (last_first fuel (N.pos p)))) as T.
  rewrite DecimalPos.Unsigned.of_lu_rev, of_lu_last_first in T by exact H.
  cbn [N.to_uint] in T. rewrite T. unfold Decimal.unorm, Decimal.rev.
  rewrite nzhead_last_first by lia.
  destruct (Decimal.revapp (last_first fuel (N.pos p)) Decimal.Nil) eqn:E;
    try reflexivity.
  exfalso. unfold Decimal.unorm, Decimal.rev in T. rewrite nzhead_last_first in T by lia.
  rewrite E in T. exact (DecimalPos.Unsigned.to_uint_nonzero p T).
Qed.

Lemma digits_of_positive (p : positive) :
  digits_before (S (N.to_nat (N.size (N.pos p)))) (N.pos p) EmptyString
  = NilEmpty.string_of_uint (Pos.to_uint p).
Proof.
  assert (H : (N.pos p < 2 ^ N.of_nat (S (N.to_nat (N.size (N.pos p)))))%N).
  { rewrite Nat2N.inj_succ, N2Nat.id, N.pow_succ_r'.
    pose proof (N.size_gt (N.pos p)). lia. }
  rewrite (to_uint_last_first _ _ H).
  exact (digits_before_last_first _ (N.pos p) Decimal.Nil).
Qed.

(** [str(n)] is the integer of JSON. *)
Lemma repr_int_numeral (n : Z) : repr_int n = numeral n.
Proof.
  unfold repr_int, numeral. destruct n as [|p|p].
  - reflexivity.
  - cbn [Z.to_int NilEmpty.string_of_int Z.abs_N Z.ltb Z.compare].
    symmetry. apply digits_of_positive.
  - cbn [Z.to_int NilEmpty.string_of_int Z.abs_N Z.ltb Z.compare].
    rewrite digits_of_positive. reflexivity.
Qed.

(** The text of a record, as [dumps_at] writes it one level in. *)
Lemma dumps_book (b : Book) : Json.dumps_at 1 (book_value b) = record_text b.
Proof.
  destruct b as [t a y g r].
  unfold record_text, book_value, line_break. cbn [title author year genre read].
  rewrite dumps_dict.
  cbn [Json.dump_members Json.dumps_at].
  rewrite !encode_str_json_string, repr_int_numeral.
  change (json_string "title") with (quoted "title").
  change (json_string "author") with (quoted "author").
  change (json_string "year") with (quoted "year").
  change (json_string "genre") with (quoted "genre").
  change (json_string "read") with (quoted "read").
  unfold Json.newline_indent.
  cbn [Json.spaces Nat.mul Nat.add].
  generalize (json_string t) (json_string a) (json_string g) (numeral y).
  intros jt ja jg ny. unfold quoted.
  destruct r;
    repeat (progress (rewrite ?append_assoc; cbn [String.append]));
    reflexivity.
Qed.

Lemma dump_items_books (bs : list Book) :
  Json.dump_items 1 (map book_value bs) = more_records bs.
Proof.
  induction bs as [|b bs IH]; [reflexivity|].
  cbn [map more_records].
  change (Json.dump_items 1 (book_value b :: map book_value bs))
    with ("," ++ Json.newline_indent 1 ++ Json.dumps_at 1 (book_value b)
          ++ Json.dump_items 1 (map book_value bs))%string.
  rewrite IH, dumps_book. reflexivity.
Qed.

Lemma dumps_library (bs : list Book) : Json.dumps (library_value bs) = file_text bs.
Proof.
  destruct bs as [|b bs]; [reflexivity|].
  unfold Json.dumps, library_value, file_text. cbn [map].
  rewrite dumps_list, dump_items_books, dumps_book. reflexivity.
Qed.

(** C8, amended.  [save_library], the write going to its end, leaves in
    the file, whatever it held before, the text of the whole store, for
    a store of books as [add_book] builds them: an array, each book a
    record with the fields title, author, year, genre and read in this
    order, indented by four spaces a level, the texts written as
    strings of JSON and the year as an integer of JSON.  The store is
    as it was. *)
Theorem save_library_writes_the_file_text
    (bs : list Book) (f : option string) (pg : list event) :
  library_file (save_library Written (mkState (library_value bs) f pg))
  = Some (file_text bs)
  /\ library (save_library Written (mkState (library_value bs) f pg))
     = library_value bs
  /\ page (save_library Written (mkState (library_value bs) f pg))
     = pg ++ [St_success "Library saved to file."].
Proof.
  unfold save_library. cbn [library_file show set_file library page].
  rewrite dumps_library. repeat split; reflexivity.
Qed.

(** C8 as stated fails for a store loaded from a file whose records
    hold their fields in another order: the record keeps the order of
    that file, and [save_library] writes it in that order. *)
Lemma save_library_keeps_the_order_of_the_keys :
  load_library (Reads 2) (initial (Some file_author_first))
  = Some (Ok (mkState (VList [book_author_first]) (Some file_author_first)
                [St_success "Library loaded from file."]))
  /\ library_file
       (save_library Written (mkState (VList [book_author_first]) (Some "[]") []))
     = Some file_author_first
  /\ file_author_first <> file_text [mkBook "Dune" "Frank Herbert" 1965 "SciFi" true].
Proof.
  split; [vm_compute; reflexivity|]. split; [vm_compute; reflexivity|].
  vm_compute. discriminate.
Qed.

(** ** Adding a book; a save that fails; a file missing or damaged *)



(** C9.  When the write of [save_library] fails, at [open] or later, the
    exception is caught: the operation ends with the error displayed
    ("Error saving library: ..."), and the store is the one it was. *)
Theorem save_library_failure_is_reported (io : disk) (s : state) :
  io <> Written ->
  exists why : string,
    library (save_library io s) = library s
    /\ page (save_library io s)
       = page s ++ [St_error ("Error saving library: " ++ why)].
Proof.
  intros H. destruct io as [|why|why n]; [congruence| |]; exists why; split; reflexivity.
Qed.

Lemma save_library_failure_is_reported_witness :
  exists why : string,
    library (save_library (OpenFails "Permission denied")
               (mkState (library_value [mkBook "Dune" "Herbert" 1965 "SciFi" true]) None []))
    = library_value [mkBook "Dune" "Herbert" 1965 "SciFi" true]
    /\ page (save_library (OpenFails "Permission denied")
               (mkState (library_value [mkBook "Dune" "Herbert" 1965 "SciFi" true]) None []))
       = [] ++ [St_error ("Error saving library: " ++ why)].
Proof.
  apply (save_library_failure_is_reported (OpenFails "Permission denied")
           (mkState (library_value [mkBook "Dune" "Herbert" 1965 "SciFi" true]) None [])).
  discriminate.
Defined.

(** Whatever the room, a file that opens more arrays than that makes
    [load_library] raise. *)
Lemma brackets_add (n m : nat) : brackets (n + m) = (brackets n ++ brackets m)%string.
Proof. induction n as [|n IH]; [reflexivity | cbn; rewrite IH; reflexivity]. Qed.

Lemma load_library_raises_on_deep_nesting
    (room n : nat) (rest : string) (lib : value) (pg : list event) :
  room < n ->
  load_library (Reads room) (mkState lib (Some (brackets n ++ rest)%string) pg)
  = Some (Raise RecursionError).
Proof.
  intros H. unfold load_library. cbn [library_file].
  replace n with (S room + (n - S room)) by lia.
  rewrite brackets_add, append_assoc, loads_brackets. reflexivity.
Qed.




(** [main] reads the file only while the store is empty. *)
Lemma startup_of_empty_store (io : reading) (s : state) :
  truthy (library s) = false -> startup io s = load_library io s.
Proof. unfold startup. intros ->. reflexivity. Qed.

Lemma startup_of_filled_store (io : reading) (s : state) :
  truthy (library s) = true -> startup io s = Some (Ok s).
Proof. unfold startup. intros ->. reflexivity. Qed.

(** ** Removing a book, searching, statistics *)

Lemma first_match_found (key : string) (pre post : list Book) (b : Book) :
  Forall (fun x => String.eqb (lower (title x)) key = false) pre ->
  String.eqb (lower (title b)) key = true ->
  first_match key (map book_value (pre ++ b :: post)) = Ok (Some (List.length pre)).
Proof.
  intros Hpre Hb. induction Hpre as [|x pre Hx Hpre IH]; simpl.
  - rewrite Hb. reflexivity.
  - rewrite Hx. cbn [map app] in IH. rewrite IH. reflexivity.
Qed.


Lemma delete_at_middle (pre post : list value) (x : value) :
  delete_at (List.length pre) (pre ++ x :: post) = pre ++ post.
Proof. induction pre as [|y pre IH]; simpl; [reflexivity | rewrite IH; reflexivity]. Qed.





Lemma remove_book_empty_title (typed : string) (s : state) :
  strip typed = EmptyString ->
  remove_book typed true s = Ok (show (St_error "Please enter a book title.") s).
Proof. intros H. unfold remove_book. rewrite H. reflexivity. Qed.

(** The books a search selects. *)
Lemma select_books (search_by needle : string) (bs : list Book) :
  select (if String.eqb search_by "Title" then "title" else "author") needle
    (map book_value bs)
  = Ok (map book_value
          (filter (fun b => contains needle (lower (field_of search_by b))) bs)).
Proof.
  unfold field_of. induction bs as [|b bs IH]; [reflexivity|].
  cbn [map select filter]. rewrite IH.
  destruct (String.eqb search_by "Title"); cbn;
    match goal with |- context [contains ?a ?b] => destruct (contains a b) end;
    reflexivity.
Qed.



(** C3.  The term "dune " is "dune" once trimmed, which the title "Dune"
    holds up to case, yet the search for it finds no book: line 85
    looks for [search_term.lower()], blank included. *)
Theorem search_book_keeps_the_blanks_of_the_term :
  contains (lower (strip "dune ")) (lower "Dune") = true
  /\ search_book "Title" "dune " true
       (mkState (library_value [mkBook "Dune" "Frank Herbert" 1965 "SciFi" true]) None [])
     = Ok (show (St_warning "No matching books found.")
             (mkState (library_value [mkBook "Dune" "Frank Herbert" 1965 "SciFi" true]) None [])).
Proof. split; reflexivity. Qed.

(** The numbers of lines 113-115 on a list of books. *)
Lemma count_read_books (bs : list Book) :
  count_read (map book_value bs) = Ok (Z.of_nat (List.length (filter read bs))).
Proof.
  induction bs as [|b bs IH]; [reflexivity|].
  cbn [map count_read]. rewrite IH.
  replace (getitem (book_value b) "read") with (Ok (VBool (read b))) by reflexivity.
  cbn [bind truthy filter]. destruct (read b); cbn [List.length]; [|reflexivity].
  rewrite Nat2Z.inj_succ. f_equal. lia.
Qed.

Lemma statistics_of_books (bs : list Book) :
  statistics (library_value bs)
  = Ok (Z.of_nat (List.length bs), Z.of_nat (List.length (filter read bs)),
        match bs with
        | [] => NumInt 0
        | _ :: _ =>
            NumFloat (percent_read (Z.of_nat (List.length (filter read bs)))
                        (Z.of_nat (List.length bs)))
        end).
Proof.
  unfold statistics, library_value. cbn [len iter bind].
  rewrite count_read_books, length_map. cbn [bind].
  destruct bs as [|b bs]; [reflexivity|].
  assert (E : (0 <? Z.of_nat (List.length (b :: bs)))%Z = true)
    by (apply Z.ltb_lt; cbn [List.length]; lia).
  rewrite E. unfold truediv.
  assert (E0 : (Z.of_nat (List.length (b :: bs)) =? 0)%Z = false)
    by (apply Z.eqb_neq; cbn [List.length]; lia).
  rewrite E0. reflexivity.
Qed.

(** C5, amended.  On a store of books that is not empty,
    [display_statistics] computes the number of books, the number of
    books read and the percentage [read / total * 100], and displays
    the total and the percentage; on the empty store it displays that
    the library is empty and computes nothing.  It raises in neither
    case. *)
Theorem display_statistics_of_books
    (bs : list Book) (f : option string) (pg : list event) :
  match bs with
  | [] =>
      display_statistics (mkState (library_value bs) f pg)
      = Ok (show (St_warning "Your library is empty.")
              (mkState (library_value bs) f pg))
  | _ :: _ =>
      statistics (library_value bs)
      = Ok (Z.of_nat (List.length bs), Z.of_nat (List.length (filter read bs)),
            NumFloat (percent_read (Z.of_nat (List.length (filter read bs)))
                        (Z.of_nat (List.length bs))))
      /\ display_statistics (mkState (library_value bs) f pg)
         = Ok (show (St_write_percentage
                       (NumFloat (percent_read (Z.of_nat (List.length (filter read bs)))
                                    (Z.of_nat (List.length bs)))))
                 (show (St_write ("**Total books:** "
                                  ++ repr_int (Z.of_nat (List.length bs))))
                    (mkState (library_value bs) f pg)))
  end.
Proof.
  destruct bs as [|b bs]; [reflexivity|].
  split; [apply statistics_of_books|].
  unfold display_statistics. cbn [library].
  rewrite statistics_of_books. reflexivity.
Qed.

(** C5 as stated fails on the empty store: what is displayed is the
    warning, not a total of 0 and a percentage of 0. *)
Lemma display_statistics_of_empty_library :
  display_statistics (initial None)
  = Ok (show (St_warning "Your library is empty.") (initial None))
  /\ display_statistics (initial None)
     <> Ok (show (St_write_percentage (NumInt 0))
             (show (St_write ("**Total books:** " ++ repr_int 0)) (initial None))).
Proof. split; [reflexivity | discriminate]. Qed.

(** ** The invariant of the books *)

(** C7 as stated fails for [load_library]: a file with a record whose
    title starts with a blank, whose author is empty and whose year is
    0 is loaded as it is. *)
Lemma load_library_takes_an_invalid_book :
  exists s' : state,
    load_library (Reads 1000)
      (initial (Some (file_text [mkBook " Dune" "" 0 "SciFi" false])))
    = Some (Ok s')
    /\ library s' = library_value [mkBook " Dune" "" 0 "SciFi" false]
    /\ ~ valid_book (mkBook " Dune" "" 0 "SciFi" false)
    /\ ~ valid_store (library s').
Proof.
  eexists. split.
  - rewrite <- dumps_library. apply load_library_stores_the_decoded_value.
    apply loads_library; [lia | repeat constructor].
  - cbn [library]. split; [reflexivity|].
    assert (N : ~ valid_book (mkBook " Dune" "" 0 "SciFi" false)).
    { intros [_ [[H _] _]]. apply H. reflexivity. }
    split; [exact N|].
    intros [bs [E V]]. apply library_value_injective in E. subst bs.
    inversion V; subst. contradiction.
Qed.

(** C7, amended.  [add_book] on a store of valid books ends with a store
    of books, the ones it held and, when the form is submitted with
    three texts that are not blank, one more at the end: the texts of
    every book are trimmed and not empty whatever the year given, and
    every book is valid when that year is within 1..2025 (the range of
    the number input, line 41).  [load_library] checks nothing: the
    store becomes the value decoded from the file, whatever it is. *)
Theorem add_book_keeps_the_store_valid
    (title author genre read : string) (year : Z) (submit : bool)
    (bs : list Book) (f : option string) (pg : list event) :
  Forall valid_book bs ->
  (exists (s' : state) (bs' : list Book),
     add_book title author year genre read submit (mkState (library_value bs) f pg)
     = Ok s'
     /\ library s' = library_value bs'
     /\ (bs' = bs
         \/ bs' = bs ++ [mkBook (strip title) (strip author) year (strip genre)
                           (String.eqb read "Yes")])
     /\ Forall trimmed_book bs'
     /\ ((1 <= year <= 2025)%Z -> Forall valid_book bs'))
  /\ (forall (room : nat) (text : string) (v lib : value),
        Json.loads room text = Json.Value v ->
        load_library (Reads room) (mkState lib (Some text) pg)
        = Some (Ok (mkState v (Some text)
                      (pg ++ [St_success "Library loaded from file."])))).
Proof.
  intros Hv.
  assert (Ht : Forall trimmed_book bs).
  { eapply Forall_impl; [|exact Hv].
    intros b [H1 [H2 [H3 _]]]. unfold trimmed_book. auto. }
  split.
  - unfold add_book. destruct submit.
    + destruct (nonempty (strip title) && nonempty (strip author)
                && nonempty (strip genre)) eqn:E.
      * apply andb_true_iff in E. destruct E as [E Eg].
        apply andb_true_iff in E. destruct E as [Et Ea].
        apply nonempty_true in Et, Ea, Eg.
        eexists.
        exists (bs ++ [mkBook (strip title) (strip author) year (strip genre)
                         (String.eqb read "Yes")]).
        split; [reflexivity|].
        cbn [library show set_library].
        split; [unfold library_value; rewrite map_app; reflexivity|].
        split; [right; reflexivity|]. split.
        -- apply Forall_app. split; [exact Ht|].
           constructor; [|constructor].
           unfold trimmed_book. cbn [Store.title Store.author Store.genre].
           auto using strip_text_ok.
        -- intros Hy. apply Forall_app. split; [exact Hv|].
           constructor; [|constructor].
           unfold valid_book. cbn [Store.title Store.author Store.genre Store.year].
           auto using strip_text_ok.
      * exists (show (St_error "Please fill in all fields.")
                  (mkState (library_value bs) f pg)), bs.
        split; [reflexivity|]. split; [reflexivity|]. auto.
    + exists (mkState (library_value bs) f pg), bs.
      split; [reflexivity|]. split; [reflexivity|]. auto.
  - intros room text v lib H. apply load_library_stores_the_decoded_value. exact H.
Qed.

Lemma add_book_keeps_the_store_valid_witness :
  (exists (s' : state) (bs' : list Book),
     add_book "  Emma " "Jane Austen" 1815 "Novel" "No" true
       (mkState (library_value [mkBook "Dune" "Frank Herbert" 1965 "SciFi" true]) None [])
     = Ok s'
     /\ library s' = library_value bs'
     /\ (bs' = [mkBook "Dune" "Frank Herbert" 1965 "SciFi" true]
         \/ bs' = [mkBook "Dune" "Frank Herbert" 1965 "SciFi" true]
                  ++ [mkBook (strip "  Emma ") (strip "Jane Austen") 1815 (strip "Novel")
                        (String.eqb "No" "Yes")])
     /\ Forall trimmed_book bs'
     /\ ((1 <= 1815 <= 2025)%Z -> Forall valid_book bs'))
  /\ (forall (room : nat) (text : string) (v lib : value),
        Json.loads room text = Json.Value v ->
        load_library (Reads room) (mkState lib (Some text) [])
        = Some (Ok (mkState v (Some text)
                      ([] ++ [St_success "Library loaded from file."])))).
Proof.
  apply (add_book_keeps_the_store_valid "  Emma " "Jane Austen" "Novel" "No" 1815 true
           [mkBook "Dune" "Frank Herbert" 1965 "SciFi" true] None []).
  constructor; [|constructor].
  unfold valid_book, text_ok. cbn.
  repeat split; try discriminate; lia.
Defined.

(** ** The case and the blanks of what is typed *)

Lemma lower_char_idempotent (c : ascii) : lower_char (lower_char c) = lower_char c.
Proof. destruct c as [[] [] [] [] [] [] [] []]; reflexivity. Qed.

Lemma isspace_lower_char (c : ascii) : isspace (lower_char c) = isspace c.
Proof. destruct c as [[] [] [] [] [] [] [] []]; reflexivity. Qed.

Lemma lower_idempotent (s : string) : lower (lower s) = lower s.
Proof.
  induction s as [|c r IH]; simpl; [reflexivity|].
  rewrite lower_char_idempotent, IH. reflexivity.
Qed.

Lemma lstrip_lower (s : string) : lstrip (lower s) = lower (lstrip s).
Proof.
  induction s as [|c r IH]; simpl; [reflexivity|].
  rewrite isspace_lower_char. destruct (isspace c); [exact IH | reflexivity].
Qed.

Lemma rstrip_lower (s : string) : rstrip (lower s) = lower (rstrip s).
Proof.
  induction s as [|c r IH]; simpl; [reflexivity|].
  rewrite IH, isspace_lower_char.
  destruct (rstrip r); simpl; [destruct (isspace c)|]; reflexivity.
Qed.

Lemma strip_lower (s : string) : strip (lower s) = lower (strip s).
Proof. unfold strip. rewrite lstrip_lower, rstrip_lower. reflexivity. Qed.

Lemma nonempty_lower (s : string) : nonempty (lower s) = nonempty s.
Proof. destruct s; reflexivity. Qed.

Lemma contains_refl (s : string) : contains s s = true.
Proof.
  apply contains_spec. exists EmptyString, EmptyString.
  simpl. rewrite append_nil_r. reflexivity.
Qed.



(** [remove_book] looks at the title typed only through its trimmed,
    lower-case form: two inputs that differ by the case of their letters
    or by blanks around them remove the same book, on any store. *)
Theorem remove_book_ignores_case_and_outer_blanks
    (typed typed' : string) (pressed : bool) (s : state) :
  lower (strip typed) = lower (strip typed') ->
  remove_book typed pressed s = remove_book typed' pressed s.
Proof.
  intros H. unfold remove_book.
  rewrite <- (nonempty_lower (strip typed)), <- (nonempty_lower (strip typed')), H.
  reflexivity.
Qed.

Lemma remove_book_ignores_case_and_outer_blanks_witness :
  remove_book "  DUNE " true
    (mkState (library_value [mkBook "Dune" "Frank Herbert" 1965 "SciFi" true]) None [])
  = remove_book "dune" true
      (mkState (library_value [mkBook "Dune" "Frank Herbert" 1965 "SciFi" true]) None []).
Proof.
  apply (remove_book_ignores_case_and_outer_blanks "  DUNE " "dune" true
           (mkState (library_value [mkBook "Dune" "Frank Herbert" 1965 "SciFi" true])
              None [])).
  reflexivity.
Defined.

(** [search_book] does not depend on the case of the letters of the
    term: a term and the same term in lower case give the same answer,
    the error for a blank term included, on any store. *)
Theorem search_book_ignores_the_case_of_the_term
    (search_by term : string) (pressed : bool) (s : state) :
  search_book search_by (lower term) pressed s = search_book search_by term pressed s.
Proof.
  unfold search_book.
  rewrite strip_lower, nonempty_lower, lower_idempotent. reflexivity.
Qed.

(** [add_book] stores the same book, and refuses the same inputs,
    whether or not the title, the author and the genre are typed with
    blanks around them. *)
Theorem add_book_ignores_outer_blanks
    (title author genre read : string) (year : Z) (submit : bool) (s : state) :
  add_book (strip title) (strip author) year (strip genre) read submit s
  = add_book title author year genre read submit s.
Proof. unfold add_book. rewrite !strip_idempotent. reflexivity. Qed.

(** ** One operation after another *)

(** What [add_book] leaves when the three texts are not blank. *)
Lemma add_book_to_books
    (title author genre read : string) (year : Z)
    (bs : list Book) (f : option string) (pg : list event) :
  strip title <> EmptyString -> strip author <> EmptyString ->
  strip genre <> EmptyString ->
  add_book title author year genre read true (mkState (library_value bs) f pg)
  = Ok (mkState
          (library_value
             (bs ++ [mkBook (strip title) (strip author) year (strip genre)
                       (String.eqb read "Yes")]))
          f (pg ++ [St_success "Book added successfully!"])).
Proof.
  intros Ht Ha Hg. unfold add_book.
  apply nonempty_true in Ht, Ha, Hg. rewrite Ht, Ha, Hg.
  unfold library_value. rewrite map_app. reflexivity.
Qed.

(** A book added to a store that holds no book of its title, then
    removed by the title typed the same way, leaves the books that were
    there, in their order. *)
Theorem add_then_remove_restores_the_books
    (title author genre read : string) (year : Z)
    (bs : list Book) (f : option string) (pg : list event) :
  strip title <> EmptyString -> strip author <> EmptyString ->
  strip genre <> EmptyString ->
  Forall (fun b => same_title title b = false) bs ->
  (s1 <- add_book title author year genre read true
           (mkState (library_value bs) f pg) ;;
   remove_book title true s1)
  = Ok (mkState (library_value bs) f
          (pg ++ [St_success "Book added successfully!";
                  St_success "Book removed successfully!"])).
Proof.
  intros Ht Ha Hg Hnone.
  rewrite add_book_to_books by assumption. cbn [bind].
  rewrite (remove_book_by_position title
             (map book_value
                (bs ++ [mkBook (strip title) (strip author) year (strip genre)
                          (String.eqb read "Yes")])));
    [ | reflexivity | apply library_value_distinct_keys
      | apply nonempty_true; exact Ht ].
  unfold remove_direct.
  rewrite (first_match_found _ bs []); [ | exact Hnone | apply String.eqb_refl ].
  cbn [bind]. rewrite map_app. cbn [map].
  rewrite <- (length_map book_value bs), delete_at_middle, List.app_nil_r.
  unfold show, set_library. cbn [library library_file page].
  rewrite <- List.app_assoc. reflexivity.
Qed.

Lemma add_then_remove_restores_the_books_witness :
  (s1 <- add_book " Emma" "Jane Austen" 1815 "Novel" "No" true
           (mkState (library_value [mkBook "Dune" "Frank Herbert" 1965 "SciFi" true])
              None []) ;;
   remove_book " Emma" true s1)
  = Ok (mkState (library_value [mkBook "Dune" "Frank Herbert" 1965 "SciFi" true]) None
          ([] ++ [St_success "Book added successfully!";
                  St_success "Book removed successfully!"])).
Proof.
  apply (add_then_remove_restores_the_books " Emma" "Jane Austen" "Novel" "No" 1815
           [mkBook "Dune" "Frank Herbert" 1965 "SciFi" true] None []);
    try discriminate.
  repeat constructor.
Defined.

(** After a book is added, a search of the titles for any part of its
    title, whatever the case, shows the books found before and, last,
    the book added. *)
Theorem add_then_search_finds_the_book_added
    (title author genre read term : string) (year : Z)
    (bs : list Book) (f : option string) (pg : list event) :
  strip title <> EmptyString -> strip author <> EmptyString ->
  strip genre <> EmptyString ->
  strip term <> EmptyString ->
  contains (lower term) (lower (strip title)) = true ->
  (s1 <- add_book title author year genre read true
           (mkState (library_value bs) f pg) ;;
   search_book "Title" term true s1)
  = Ok (mkState
          (library_value
             (bs ++ [mkBook (strip title) (strip author) year (strip genre)
                       (String.eqb read "Yes")]))
          f
          (pg ++ [St_success "Book added successfully!";
                  St_write "**Matching Books:**";
                  St_dataframe
                    (map book_value
                       (filter (fun b => contains (lower term) (lower (Store.title b))) bs
                        ++ [mkBook (strip title) (strip author) year (strip genre)
                              (String.eqb read "Yes")]))])).
Proof.
  intros Ht Ha Hg Hterm Hc.
  rewrite add_book_to_books by assumption. cbn [bind].
  unfold search_book. apply nonempty_true in Hterm. rewrite Hterm.
  cbn [library library_value iter bind].
  change "title" with (if String.eqb "Title" "Title" then "title" else "author").
  rewrite select_books. cbn [bind].
  rewrite filter_app.
  assert (Hnew : filter (fun b => contains (lower term) (lower (field_of "Title" b)))
                   [mkBook (strip title) (strip author) year (strip genre)
                      (String.eqb read "Yes")]
                 = [mkBook (strip title) (strip author) year (strip genre)
                      (String.eqb read "Yes")]).
  { cbn [filter]. unfold field_of. cbn [String.eqb Ascii.eqb Bool.eqb Store.title].
    rewrite Hc. reflexivity. }
  rewrite Hnew.
  replace (filter (fun b => contains (lower term) (lower (field_of "Title" b))) bs)
    with (filter (fun b => contains (lower term) (lower (Store.title b))) bs)
    by reflexivity.
  destruct (filter (fun b => contains (lower term) (lower (Store.title b))) bs
            ++ [mkBook (strip title) (strip author) year (strip genre)
                  (String.eqb read "Yes")]) as [|m ms] eqn:E.
  - exfalso. apply app_eq_nil in E. destruct E as [_ E]. discriminate E.
  - unfold show. cbn [library library_file page map].
    rewrite <- !List.app_assoc. reflexivity.
Qed.

Lemma add_then_search_finds_the_book_added_witness :
  (s1 <- add_book " Dune Messiah " "Frank Herbert" 1969 "SciFi" "Yes" true
           (mkState (library_value [mkBook "Dune" "Frank Herbert" 1965 "SciFi" true;
                                    mkBook "Emma" "Jane Austen" 1815 "Novel" false])
              None []) ;;
   search_book "Title" "DUNE" true s1)
  = Ok (mkState
          (library_value
             ([mkBook "Dune" "Frank Herbert" 1965 "SciFi" true;
               mkBook "Emma" "Jane Austen" 1815 "Novel" false]
              ++ [mkBook (strip " Dune Messiah ") (strip "Frank Herbert") 1969
                    (strip "SciFi") (String.eqb "Yes" "Yes")]))
          None
          ([] ++ [St_success "Book added successfully!";
                  St_write "**Matching Books:**";
                  St_dataframe
                    (map book_value
                       (filter (fun b => contains (lower "DUNE") (lower (Store.title b)))
                          [mkBook "Dune" "Frank Herbert" 1965 "SciFi" true;
                           mkBook "Emma" "Jane Austen" 1815 "Novel" false]
                        ++ [mkBook (strip " Dune Messiah ") (strip "Frank Herbert") 1969
                              (strip "SciFi") (String.eqb "Yes" "Yes")]))])).
Proof.
  apply (add_then_search_finds_the_book_added " Dune Messiah " "Frank Herbert" "SciFi"
           "Yes" "DUNE" 1969
           [mkBook "Dune" "Frank Herbert" 1965 "SciFi" true;
            mkBook "Emma" "Jane Austen" 1815 "Novel" false] None []);
    try discriminate.
  reflexivity.
Defined.





(** ** A store loaded from a file that does not hold books *)

Lemma select_raises_at (field needle : string) (pre : list Book)
    (x : value) (rest : list value) (e : exn) :
  (field = "title" \/ field = "author") ->
  (f <- getitem x field ;; str_lower f) = Raise e ->
  select field needle (map book_value pre ++ x :: rest) = Raise e.
Proof.
  intros Hf Hx. induction pre as [|b pre IH].
  - cbn [map app select].
    destruct (getitem x field) as [v|e']; cbn [bind] in *.
    + rewrite Hx. reflexivity.
    + injection Hx as ->. reflexivity.
  - cbn [map app select]. rewrite IH.
    destruct Hf as [-> | ->]; reflexivity.
Qed.

(** [search_book] on a store where, after some books, comes a record
    that lacks the field searched, or holds a number for it: the search
    raises [KeyError], or [AttributeError], whatever the term and
    whatever the books before match. *)
Theorem search_book_raises_on_a_record_without_the_field
    (search_by term : string) (pre : list Book)
    (d : list (string * value)) (rest : list value)
    (f : option string) (pg : list event) :
  strip term <> EmptyString ->
  (dict_get (if String.eqb search_by "Title" then "title" else "author") d = None ->
   search_book search_by term true
     (mkState (VList (map book_value pre ++ VDict d :: rest)) f pg)
   = Raise KeyError)
  /\ (forall n : Z,
        dict_get (if String.eqb search_by "Title" then "title" else "author") d
        = Some (VInt n) ->
        search_book search_by term true
          (mkState (VList (map book_value pre ++ VDict d :: rest)) f pg)
        = Raise AttributeError).
Proof.
  intros Hterm. apply nonempty_true in Hterm.
  assert (Hf : (if String.eqb search_by "Title" then "title" else "author") = "title"
               \/ (if String.eqb search_by "Title" then "title" else "author") = "author")
    by (destruct (String.eqb search_by "Title"); auto).
  split.
  - intros Hd. unfold search_book. rewrite Hterm. cbn [library iter bind].
    rewrite (select_raises_at _ _ pre (VDict d) rest KeyError Hf); [reflexivity|].
    cbn [getitem]. rewrite Hd. reflexivity.
  - intros n Hd. unfold search_book. rewrite Hterm. cbn [library iter bind].
    rewrite (select_raises_at _ _ pre (VDict d) rest AttributeError Hf); [reflexivity|].
    cbn [getitem]. rewrite Hd. reflexivity.
Qed.

Lemma search_book_raises_on_a_record_without_the_field_witness :
  search_book "Author" "austen" true
    (mkState (VList (map book_value [mkBook "Persuasion" "Jane Austen" 1817 "Novel" true]
                     ++ VDict [("title", VStr "Emma")] :: [])) None [])
  = Raise KeyError
  /\ search_book "Title" "emma" true
       (mkState (VList (map book_value [mkBook "Persuasion" "Jane Austen" 1817 "Novel" true]
                        ++ VDict [("title", VInt 1984)]
                        :: [book_value (mkBook "Emma" "Jane Austen" 1815 "Novel" true)]))
          None [])
     = Raise AttributeError.
Proof.
  split.
  - apply (proj1 (search_book_raises_on_a_record_without_the_field "Author" "austen"
                    [mkBook "Persuasion" "Jane Austen" 1817 "Novel" true]
                    [("title", VStr "Emma")] [] None [] ltac:(discriminate))).
    reflexivity.
  - apply (proj2 (search_book_raises_on_a_record_without_the_field "Title" "emma"
                    [mkBook "Persuasion" "Jane Austen" 1817 "Novel" true]
                    [("title", VInt 1984)]
                    [book_value (mkBook "Emma" "Jane Austen" 1815 "Novel" true)]
                    None [] ltac:(discriminate)) 1984%Z).
    reflexivity.
Defined.

Lemma py_eq_books_same_title (x b : Book) :
  py_eq (book_value x) (book_value b) = true -> title x = title b.
Proof.
  intros H.
  destruct (py_eq_dict_get _ _ "title" (VStr (title x)) H eq_refl) as [v [Hv Hq]].
  cbn in Hv. injection Hv as <-. apply py_eq_str in Hq. congruence.
Qed.

Lemma remove_scan_reaches_the_match
    (key : string) (b : Book) (tail : list value) (before after : list Book)
    (s : state) :
  library s = VList (map book_value (before ++ after) ++ book_value b :: tail) ->
  Forall (fun x => String.eqb (lower (title x)) key = false) (before ++ after) ->
  String.eqb (lower (title b)) key = true ->
  remove_scan key (map book_value after ++ book_value b :: tail) s
  = Ok (show (St_success "Book removed successfully!")
          (set_library (VList (map book_value (before ++ after) ++ tail)) s)).
Proof.
  revert before. induction after as [|x after IH]; intros before Hl Hnone Hb.
  - cbn [map app remove_scan].
    replace (getitem (book_value b) "title") with (Ok (VStr (title b))) by reflexivity.
    cbn [bind str_lower]. rewrite Hb, Hl. cbn [remove].
    rewrite list_remove_first; [reflexivity | | apply py_eq_refl, book_value_distinct_keys].
    apply Forall_map. eapply Forall_impl; [|exact Hnone].
    intros x Hx. cbn beta in Hx.
    destruct (py_eq (book_value x) (book_value b)) eqn:E; [|reflexivity].
    apply py_eq_books_same_title in E. rewrite E, Hb in Hx. discriminate.
  - cbn [map app remove_scan].
    replace (getitem (book_value x) "title") with (Ok (VStr (title x))) by reflexivity.
    cbn [bind str_lower].
    assert (Hx : String.eqb (lower (title x)) key = false).
    { rewrite Forall_forall in Hnone. apply Hnone.
      apply in_or_app. right. left. reflexivity. }
    rewrite Hx.
    replace (before ++ x :: after) with ((before ++ [x]) ++ after) in *
      by (rewrite <- List.app_assoc; reflexivity).
    apply IH; assumption.
Qed.

Lemma remove_scan_raises_at
    (key : string) (pre : list Book) (x : value) (rest : list value)
    (e : exn) (s : state) :
  Forall (fun b => String.eqb (lower (title b)) key = false) pre ->
  (t <- getitem x "title" ;; str_lower t) = Raise e ->
  remove_scan key (map book_value pre ++ x :: rest) s = Raise e.
Proof.
  intros Hnone Hx. induction Hnone as [|b pre Hb Hnone IH].
  - cbn [map app remove_scan].
    destruct (getitem x "title") as [v|e']; cbn [bind] in *.
    + destruct (str_lower v); [discriminate | injection Hx as <-; reflexivity].
    + injection Hx as ->. reflexivity.
  - cbn [map app remove_scan].
    replace (getitem (book_value b) "title") with (Ok (VStr (title b))) by reflexivity.
    cbn [bind str_lower]. rewrite Hb. exact IH.
Qed.

(** [remove_book] on a store where, after some books, comes a record
    without a title: when one of the books before it has the title
    typed, the first such book goes and nothing is raised; when none
    has, the scan reaches the record and raises [KeyError]. *)
Theorem remove_book_stops_before_a_record_without_title
    (typed : string) (pre : list Book)
    (d : list (string * value)) (rest : list value)
    (f : option string) (pg : list event) :
  strip typed <> EmptyString ->
  dict_get "title" d = None ->
  (forall before b after,
      pre = before ++ b :: after ->
      Forall (fun x => same_title typed x = false) before ->
      same_title typed b = true ->
      remove_book typed true
        (mkState (VList (map book_value pre ++ VDict d :: rest)) f pg)
      = Ok (mkState (VList (map book_value (before ++ after) ++ VDict d :: rest)) f
              (pg ++ [St_success "Book removed successfully!"])))
  /\ (Forall (fun x => same_title typed x = false) pre ->
      remove_book typed true
        (mkState (VList (map book_value pre ++ VDict d :: rest)) f pg)
      = Raise KeyError).
Proof.
  intros Ht Hd. apply nonempty_true in Ht. split.
  - intros before b after -> Hbefore Hb.
    unfold remove_book. rewrite Ht. cbn [library iter_copy bind].
    rewrite map_app. cbn [map]. rewrite <- List.app_assoc. cbn [app].
    rewrite (remove_scan_reaches_the_match (lower (strip typed)) b
               (map book_value after ++ VDict d :: rest) [] before);
      [ | reflexivity | exact Hbefore | exact Hb ].
    cbn [app]. unfold show, set_library. cbn [library library_file page].
    rewrite map_app, <- List.app_assoc. reflexivity.
  - intros Hnone. unfold remove_book. rewrite Ht. cbn [library iter_copy bind].
    apply remove_scan_raises_at; [exact Hnone|].
    cbn [getitem]. rewrite Hd. reflexivity.
Qed.

Lemma remove_book_stops_before_a_record_without_title_witness :
  remove_book "dune" true
    (mkState (VList (map book_value [mkBook "Emma" "Jane Austen" 1815 "Novel" true;
                                     mkBook "Dune" "Frank Herbert" 1965 "SciFi" true]
                     ++ VDict [("author", VStr "Anon")] :: [])) None [])
  = Ok (mkState (VList (map book_value ([mkBook "Emma" "Jane Austen" 1815 "Novel" true] ++ [])
                        ++ VDict [("author", VStr "Anon")] :: [])) None
          ([] ++ [St_success "Book removed successfully!"]))
  /\ remove_book "ulysses" true
       (mkState (VList (map book_value [mkBook "Emma" "Jane Austen" 1815 "Novel" true;
                                        mkBook "Dune" "Frank Herbert" 1965 "SciFi" true]
                        ++ VDict [("author", VStr "Anon")] :: [])) None [])
     = Raise KeyError.
Proof.
  split.
  - apply (proj1 (remove_book_stops_before_a_record_without_title "dune"
                    [mkBook "Emma" "Jane Austen" 1815 "Novel" true;
                     mkBook "Dune" "Frank Herbert" 1965 "SciFi" true]
                    [("author", VStr "Anon")] [] None []
                    ltac:(discriminate) eq_refl)
             [mkBook "Emma" "Jane Austen" 1815 "Novel" true]
             (mkBook "Dune" "Frank Herbert" 1965 "SciFi" true) []).
    + reflexivity.
    + repeat constructor.
    + reflexivity.
  - apply (proj2 (remove_book_stops_before_a_record_without_title "ulysses"
                    [mkBook "Emma" "Jane Austen" 1815 "Novel" true;
                     mkBook "Dune" "Frank Herbert" 1965 "SciFi" true]
                    [("author", VStr "Anon")] [] None []
                    ltac:(discriminate) eq_refl)).
    repeat constructor.
Defined.

Lemma count_read_raises_at (pre : list Book) (x : value) (rest : list value) (e : exn) :
  getitem x "read" = Raise e ->
  count_read (map book_value pre ++ x :: rest) = Raise e.
Proof.
  intros Hx. induction pre as [|b pre IH].
  - cbn [map app count_read]. rewrite Hx. reflexivity.
  - cbn [map app count_read]. rewrite IH. reflexivity.
Qed.

(** [display_statistics] on a store where a record, after some books,
    has no read flag: [KeyError] is raised and nothing is displayed,
    however many books the store holds. *)
Theorem display_statistics_raises_on_a_record_without_read
    (pre : list Book) (d : list (string * value)) (rest : list value)
    (f : option string) (pg : list event) :
  dict_get "read" d = None ->
  display_statistics (mkState (VList (map book_value pre ++ VDict d :: rest)) f pg)
  = Raise KeyError.
Proof.
  intros Hd. unfold display_statistics. cbn [library].
  assert (T : truthy (VList (map book_value pre ++ VDict d :: rest)) = true)
    by (destruct pre; reflexivity).
  rewrite T. unfold statistics. cbn [len iter bind].
  rewrite (count_read_raises_at pre (VDict d) rest KeyError); [reflexivity|].
  cbn [getitem]. rewrite Hd. reflexivity.
Qed.

Lemma display_statistics_raises_on_a_record_without_read_witness :
  display_statistics
    (mkState (VList (map book_value [mkBook "Dune" "Frank Herbert" 1965 "SciFi" true]
                     ++ VDict [("title", VStr "Emma")] :: [])) None [])
  = Raise KeyError.
Proof.
  apply (display_statistics_raises_on_a_record_without_read
           [mkBook "Dune" "Frank Herbert" 1965 "SciFi" true]
           [("title", VStr "Emma")] [] None []).
  reflexivity.
Defined.

(** [load_library] takes any value the file decodes to: when it is not
    an array (an object, an integer, a string, true, false or null),
    the store becomes that value, with the notice of a load that went
    well, and [add_book] then raises [AttributeError] for a book it
    would otherwise accept. *)
Theorem add_book_raises_after_loading_what_is_no_array
    (room : nat) (text : string) (v : value) (pg : list event)
    (title author genre read : string) (year : Z) :
  Json.loads room text = Json.Value v ->
  (forall l, v <> VList l) ->
  strip title <> EmptyString -> strip author <> EmptyString ->
  strip genre <> EmptyString ->
  load_library (Reads room) (mkState (VList []) (Some text) pg)
  = Some (Ok (mkState v (Some text)
                (pg ++ [St_success "Library loaded from file."])))
  /\ add_book title author year genre read true
       (mkState v (Some text) (pg ++ [St_success "Library loaded from file."]))
     = Raise AttributeError.
Proof.
  intros Hv Hl Ht Ha Hg. split.
  - apply load_library_stores_the_decoded_value. exact Hv.
  - unfold add_book. apply nonempty_true in Ht, Ha, Hg. rewrite Ht, Ha, Hg.
    cbn [andb library].
    destruct v; try reflexivity. exfalso. apply (Hl l). reflexivity.
Qed.

Lemma add_book_raises_after_loading_what_is_no_array_witness :
  load_library (Reads 1000) (mkState (VList []) (Some "{ }") [])
  = Some (Ok (mkState (VDict []) (Some "{ }")
                ([] ++ [St_success "Library loaded from file."])))
  /\ add_book "Dune" "Frank Herbert" 1965 "SciFi" "Yes" true
       (mkState (VDict []) (Some "{ }") ([] ++ [St_success "Library loaded from file."]))
     = Raise AttributeError.
Proof.
  apply (add_book_raises_after_loading_what_is_no_array 1000 "{ }" (VDict []) []
           "Dune" "Frank Herbert" "SciFi" "Yes" 1965).
  - reflexivity.
  - discriminate.
  - discriminate.
  - discriminate.
  - discriminate.
Defined.

(** ** The counts of the statistics *)

Lemma read_count_le (bs : list Book) :
  List.length (filter read bs) <= List.length bs.
Proof. induction bs as [|b bs IH]; simpl; [lia|]. destruct (read b); simpl; lia. Qed.

(** The counts of [display_statistics] on books: the books read are not
    more than the books; a book added makes one book more, and one more
    read exactly when the choice was "Yes". *)
Theorem statistics_counts_after_add_book
    (title author genre read : string) (year : Z)
    (bs : list Book) (f : option string) (pg : list event) :
  strip title <> EmptyString -> strip author <> EmptyString ->
  strip genre <> EmptyString ->
  exists (total read_count : Z) (p p' : number),
    statistics (library_value bs) = Ok (total, read_count, p)
    /\ (0 <= read_count <= total)%Z
    /\ (s1 <- add_book title author year genre read true
                (mkState (library_value bs) f pg) ;;
        statistics (library s1))
       = Ok ((total + 1)%Z,
             (read_count + (if String.eqb read "Yes" then 1 else 0))%Z, p').
Proof.
  intros Ht Ha Hg.
  rewrite add_book_to_books by assumption. cbn [bind library].
  rewrite !statistics_of_books.
  do 4 eexists. split; [reflexivity|]. split.
  - pose proof (read_count_le bs). lia.
  - assert (E1 : Z.of_nat (List.length
                       (bs ++ [mkBook (strip title) (strip author) year (strip genre)
                                 (String.eqb read "Yes")]))
                 = (Z.of_nat (List.length bs) + 1)%Z)
      by (rewrite length_app; cbn [List.length]; lia).
    assert (E2 : Z.of_nat (List.length
                       (filter Store.read
                          (bs ++ [mkBook (strip title) (strip author) year (strip genre)
                                    (String.eqb read "Yes")])))
                 = (Z.of_nat (List.length (filter Store.read bs))
                    + (if String.eqb read "Yes" then 1 else 0))%Z).
    { rewrite filter_app, length_app. cbn [filter Store.read].
      destruct (String.eqb read "Yes"); cbn [List.length]; lia. }
    rewrite E1, E2. reflexivity.
Qed.

Lemma statistics_counts_after_add_book_witness :
  exists (total read_count : Z) (p p' : number),
    statistics (library_value [mkBook "Dune" "Frank Herbert" 1965 "SciFi" true;
                               mkBook "Emma" "Jane Austen" 1815 "Novel" false])
    = Ok (total, read_count, p)
    /\ (0 <= read_count <= total)%Z
    /\ (s1 <- add_book "Ulysses" "James Joyce" 1922 "Novel" "Yes" true
                (mkState (library_value [mkBook "Dune" "Frank Herbert" 1965 "SciFi" true;
                                         mkBook "Emma" "Jane Austen" 1815 "Novel" false])
                   None []) ;;
        statistics (library s1))
       = Ok ((total + 1)%Z,
             (read_count + (if String.eqb "Yes" "Yes" then 1 else 0))%Z, p').
Proof.
  apply (statistics_counts_after_add_book "Ulysses" "James Joyce" "Novel" "Yes" 1922
           [mkBook "Dune" "Frank Herbert" 1965 "SciFi" true;
            mkBook "Emma" "Jane Austen" 1815 "Novel" false] None []);
    discriminate.
Defined.

(** A book removed makes one book less, and one less read exactly when
    the book removed was read: the counts of the store left are those
    of the books before and after the first match. *)
Theorem statistics_counts_after_remove_book
    (typed : string) (before after : list Book) (b : Book)
    (f : option string) (pg : list event) :
  strip typed <> EmptyString ->
  Forall (fun x => same_title typed x = false) before ->
  same_title typed b = true ->
  exists (total read_count : Z) (p p' : number),
    statistics (library_value (before ++ b :: after)) = Ok (total, read_count, p)
    /\ (s1 <- remove_book typed true
                (mkState (library_value (before ++ b :: after)) f pg) ;;
        statistics (library s1))
       = Ok ((total - 1)%Z,
             (read_count - (if read b then 1 else 0))%Z, p').
Proof.
  intros Ht Hbefore Hb. apply nonempty_true in Ht.
  rewrite (remove_book_by_position typed (map book_value (before ++ b :: after)));
    [ | reflexivity | apply library_value_distinct_keys | exact Ht ].
  unfold remove_direct.
  rewrite (first_match_found _ before after b Hbefore Hb). cbn [bind].
  rewrite map_app. cbn [map].
  rewrite <- (length_map book_value before), delete_at_middle, <- map_app.
  cbn [library show set_library].
  change (VList (map book_value (before ++ after))) with (library_value (before ++ after)).
  rewrite !statistics_of_books.
  do 4 eexists. split; [reflexivity|].
  assert (E1 : Z.of_nat (List.length (before ++ after))
               = (Z.of_nat (List.length (before ++ b :: after)) - 1)%Z)
    by (rewrite !length_app; cbn [List.length]; lia).
  assert (E2 : Z.of_nat (List.length (filter read (before ++ after)))
               = (Z.of_nat (List.length (filter read (before ++ b :: after)))
                  - (if read b then 1 else 0))%Z).
  { rewrite !filter_app, !length_app. cbn [filter].
    destruct (read b); cbn [List.length]; lia. }
  rewrite E1, E2. reflexivity.
Qed.

Lemma statistics_counts_after_remove_book_witness :
  exists (total read_count : Z) (p p' : number),
    statistics (library_value ([mkBook "Emma" "Jane Austen" 1815 "Novel" false]
                               ++ mkBook "Dune" "Frank Herbert" 1965 "SciFi" true
                               :: [mkBook "Dune" "David Lynch" 1984 "Film" false]))
    = Ok (total, read_count, p)
    /\ (s1 <- remove_book " DUNE" true
                (mkState (library_value
                            ([mkBook "Emma" "Jane Austen" 1815 "Novel" false]
                             ++ mkBook "Dune" "Frank Herbert" 1965 "SciFi" true
                             :: [mkBook "Dune" "David Lynch" 1984 "Film" false]))
                   None []) ;;
        statistics (library s1))
       = Ok ((total - 1)%Z, (read_count - (if true then 1 else 0))%Z, p').
Proof.
  apply (statistics_counts_after_remove_book " DUNE"
           [mkBook "Emma" "Jane Austen" 1815 "Novel" false]
           [mkBook "Dune" "David Lynch" 1984 "Film" false]
           (mkBook "Dune" "Frank Herbert" 1965 "SciFi" true) None []).
  - discriminate.
  - repeat constructor.
  - reflexivity.
Defined.

(** ** The runs of [main] *)

Lemma add_book_keeps_the_file
    (title author genre read : string) (year : Z) (submit : bool) (s s' : state) :
  add_book title author year genre read submit s = Ok s' ->
  library_file s' = library_file s.
Proof.
  unfold add_book. destruct submit; [|intros H; injection H as <-; reflexivity].
  destruct (nonempty (strip title) && nonempty (strip author) && nonempty (strip genre));
    [|intros H; injection H as <-; reflexivity].
  cbv zeta. destruct (append (library s) _); cbn [bind]; [|discriminate].
  intros H. injection H as <-. reflexivity.
Qed.

Lemma remove_scan_keeps_the_file (key : string) (books : list value) (s s' : state) :
  remove_scan key books s = Ok s' -> library_file s' = library_file s.
Proof.
  induction books as [|book books IH]; cbn [remove_scan].
  - intros H. injection H as <-. reflexivity.
  - destruct (getitem book "title"); cbn [bind]; [|discriminate].
    destruct (str_lower a); cbn [bind]; [|discriminate].
    destruct (String.eqb a0 key); [|exact IH].
    destruct (remove (library s) book); cbn [bind]; [|discriminate].
    intros H. injection H as <-. reflexivity.
Qed.

Lemma remove_book_keeps_the_file (typed : string) (pressed : bool) (s s' : state) :
  remove_book typed pressed s = Ok s' -> library_file s' = library_file s.
Proof.
  unfold remove_book. destruct pressed; [|intros H; injection H as <-; reflexivity].
  destruct (nonempty (strip typed)); [|intros H; injection H as <-; reflexivity].
  destruct (iter_copy (library s)); cbn [bind]; [|discriminate].
  apply remove_scan_keeps_the_file.
Qed.

Lemma search_book_keeps_the_state
    (search_by term : string) (pressed : bool) (s s' : state) :
  search_book search_by term pressed s = Ok s' ->
  library_file s' = library_file s /\ library s' = library s.
Proof.
  unfold search_book. destruct pressed; [|intros H; injection H as <-; auto].
  destruct (nonempty (strip term)); [|intros H; injection H as <-; auto].
  destruct (iter (library s)); cbn [bind]; [|discriminate].
  destruct (select _ _ _) as [[|m ms]|]; cbn [bind]; try discriminate.
  - intros H; injection H as <-; auto.
  - destruct (forallb (column_of (m :: ms)) columns); [|discriminate].
    intros H; injection H as <-; auto.
Qed.

Lemma display_statistics_keeps_the_state (s s' : state) :
  display_statistics s = Ok s' ->
  library_file s' = library_file s /\ library s' = library s.
Proof.
  unfold display_statistics. destruct (truthy (library s));
    [|intros H; injection H as <-; auto].
  destruct (statistics (library s)) as [[[t r] p]|]; cbn [bind]; [|discriminate].
  intros H. injection H as <-. auto.
Qed.

Lemma display_all_books_keeps_the_state (s s' : state) :
  display_all_books s = Some s' ->
  library_file s' = library_file s /\ library s' = library s.
Proof.
  unfold display_all_books.
  destruct (truthy (library s)); [|intros H; injection H as <-; auto].
  destruct (library s) as [| | | |rows|] eqn:E; try discriminate.
  destruct (forallb has_columns rows); [|discriminate].
  intros H. injection H as <-. cbn [library_file library show]. auto.
Qed.

Lemma load_library_keeps_the_file (io : reading) (s s' : state) :
  load_library io s = Some (Ok s') -> library_file s' = library_file s.
Proof.
  unfold load_library. destruct (library_file s) as [text|] eqn:E.
  - destruct io as [room|e]; [|discriminate].
    destruct (Json.loads room text); try discriminate;
      intros H; injection H as <-; exact E.
  - intros H. injection H as <-. exact E.
Qed.

Lemma startup_keeps_the_file (io : reading) (s s' : state) :
  startup io s = Some (Ok s') -> library_file s' = library_file s.
Proof.
  unfold startup. destruct (truthy (library s)).
  - intros H. injection H as <-. reflexivity.
  - apply load_library_keeps_the_file.
Qed.

(** Whatever the menu serves but "Save and Exit", a run of [main] that
    comes to its end leaves the file as it was: nothing is saved on the
    way, a book added or removed is in the store only. *)
Theorem main_writes_the_file_only_on_save_and_exit
    (w : widgets) (s s' : state) :
  w_menu w <> "Save and Exit" ->
  main w s = Some (Ok s') ->
  library_file s' = library_file s.
Proof.
  intros Hm. unfold main.
  destruct (startup (w_reading w) s) as [[s1|e]|] eqn:E; try discriminate.
  apply startup_keeps_the_file in E. rewrite <- E.
  unfold dispatch.
  destruct (String.eqb (w_menu w) "Add a Book").
  { intros H. injection H as H. eapply add_book_keeps_the_file; eauto. }
  destruct (String.eqb (w_menu w) "Remove a Book").
  { intros H. injection H as H. eapply remove_book_keeps_the_file; eauto. }
  destruct (String.eqb (w_menu w) "Search for a Book").
  { intros H. injection H as H. eapply search_book_keeps_the_state; eauto. }
  destruct (String.eqb (w_menu w) "Display All Books").
  { destruct (display_all_books s1) eqn:D; cbn [option_map]; [|discriminate].
    intros H. injection H as <-. eapply display_all_books_keeps_the_state; eauto. }
  destruct (String.eqb (w_menu w) "Display Statistics").
  { intros H. injection H as H. eapply display_statistics_keeps_the_state; eauto. }
  destruct (String.eqb (w_menu w) "Save and Exit") eqn:S.
  { apply String.eqb_eq in S. contradiction. }
  intros H. injection H as <-. reflexivity.
Qed.

Lemma main_writes_the_file_only_on_save_and_exit_witness :
  library_file
    (mkState (library_value [mkBook "Dune" "Frank Herbert" 1965 "SciFi" true]) None
       [St_info "No library file found. Starting with an empty library.";
        St_success "Book added successfully!"])
  = library_file (initial None).
Proof.
  apply (main_writes_the_file_only_on_save_and_exit
           (mkWidgets "Add a Book" "Dune" "Frank Herbert" 1965 "SciFi" "Yes" true
              "" false "Title" "" false Written (Reads 1000))
           (initial None)).
  - discriminate.
  - reflexivity.
Defined.

(** "Save and Exit" when the write fails, at [open] or later, with an
    exception whose text is [why]: the error of the save is displayed
    with that text and, after it, the notice "Library saved. You can
    close the app." all the same; the store is as it was. *)
Theorem main_says_saved_after_a_save_that_failed
    (w : widgets) (s s1 : state) (why : string) :
  w_menu w = "Save and Exit" ->
  w_disk w = OpenFails why \/ (exists written : nat, w_disk w = WriteFails why written) ->
  startup (w_reading w) s = Some (Ok s1) ->
  exists s' : state,
    main w s = Some (Ok s')
    /\ library s' = library s1
    /\ page s' = page s1 ++ [St_error ("Error saving library: " ++ why);
                             St_info "Library saved. You can close the app."].
Proof.
  intros Hm Hd Hs. unfold main. rewrite Hs. unfold dispatch. rewrite Hm.
  cbn [String.eqb Ascii.eqb Bool.eqb].
  destruct Hd as [Hd | [written Hd]]; rewrite Hd;
    eexists; (split; [reflexivity|]); split; try reflexivity;
    cbn [page show save_library set_file]; rewrite <- List.app_assoc; reflexivity.
Qed.

Lemma main_says_saved_after_a_save_that_failed_witness :
  exists s' : state,
    main (mkWidgets "Save and Exit" "" "" 1 "" "Yes" false "" false "Title" "" false
            (OpenFails "[Errno 13] Permission denied: 'library.txt'") (Reads 1000))
      (mkState (library_value [mkBook "Dune" "Frank Herbert" 1965 "SciFi" true]) None [])
    = Some (Ok s')
    /\ library s'
       = library (mkState (library_value [mkBook "Dune" "Frank Herbert" 1965 "SciFi" true])
                    None [])
    /\ page s'
       = page (mkState (library_value [mkBook "Dune" "Frank Herbert" 1965 "SciFi" true])
                 None [])
         ++ [St_error ("Error saving library: "
                       ++ "[Errno 13] Permission denied: 'library.txt'");
             St_info "Library saved. You can close the app."].
Proof.
  apply (main_says_saved_after_a_save_that_failed
           (mkWidgets "Save and Exit" "" "" 1 "" "Yes" false "" false "Title" "" false
              (OpenFails "[Errno 13] Permission denied: 'library.txt'") (Reads 1000))
           (mkState (library_value [mkBook "Dune" "Frank Herbert" 1965 "SciFi" true])
              None [])
           (mkState (library_value [mkBook "Dune" "Frank Herbert" 1965 "SciFi" true])
              None [])
           "[Errno 13] Permission denied: 'library.txt'").
  - reflexivity.
  - left. reflexivity.
  - reflexivity.
Defined.

Lemma load_library_of_file_text
    (room : nat) (bs : list Book) (lib : value) (pg : list event) :
  2 <= room -> Forall (fun b => int_fits (year b) = true) bs ->
  load_library (Reads room) (mkState lib (Some (file_text bs)) pg)
  = Some (Ok (mkState (library_value bs) (Some (file_text bs))
                (pg ++ [St_success "Library loaded from file."]))).
Proof.
  intros R F. apply load_library_stores_the_decoded_value.
  rewrite <- dumps_library. apply loads_library; assumption.
Qed.

(** The store is read from the file again whenever a run finds it
    empty: when the only book of the store is removed while the file
    still holds the books saved, the next run, whatever its menu,
    serves the menu on the books of the file, if the file can be read
    (the interpreter having room for its two levels); a read that
    raises ends that run. *)
Theorem main_reloads_the_file_once_the_store_is_empty
    (w : widgets) (b : Book) (bs : list Book) (pg : list event) :
  w_menu w = "Remove a Book" -> w_remove w = true ->
  strip (w_remove_title w) <> EmptyString ->
  same_title (w_remove_title w) b = true ->
  Forall (fun b => int_fits (year b) = true) bs ->
  exists s1 : state,
    main w (mkState (library_value [b]) (Some (file_text bs)) pg) = Some (Ok s1)
    /\ library s1 = VList []
    /\ (forall (w' : widgets) (room : nat),
          w_reading w' = Reads room -> 2 <= room ->
          main w' s1
          = dispatch w'
              (mkState (library_value bs) (Some (file_text bs))
                 (pg ++ [St_success "Book removed successfully!";
                         St_success "Library loaded from file."])))
    /\ (forall (w' : widgets) (e : exn),
          w_reading w' = ReadFails e -> main w' s1 = Some (Raise e)).
Proof.
  intros Hm Hp Ht Hb Hf. unfold main at 1.
  cbn [startup library truthy library_value map]. unfold dispatch at 1.
  rewrite Hm, Hp. cbn [String.eqb Ascii.eqb Bool.eqb].
  rewrite (remove_book_by_position _ (map book_value [b]));
    [ | reflexivity | apply library_value_distinct_keys | apply nonempty_true; exact Ht ].
  unfold remove_direct.
  rewrite (first_match_found _ [] [] b); [ | constructor | exact Hb ].
  cbn [bind List.length map delete_at app].
  eexists. split; [reflexivity|]. split; [reflexivity|]. split.
  - intros w' room Hr R. unfold main. rewrite Hr.
    cbn [startup library show set_library truthy].
    unfold show, set_library. cbn [library library_file page].
    rewrite load_library_of_file_text by assumption.
    rewrite <- List.app_assoc. reflexivity.
  - intros w' e Hr. unfold main. rewrite Hr. reflexivity.
Qed.

Lemma main_reloads_the_file_once_the_store_is_empty_witness :
  exists s1 : state,
    main (mkWidgets "Remove a Book" "" "" 1 "" "Yes" false "dune" true "Title" "" false
            Written (Reads 1000))
      (mkState (library_value [mkBook "Dune" "Frank Herbert" 1965 "SciFi" true])
         (Some (file_text [mkBook "Dune" "Frank Herbert" 1965 "SciFi" true])) [])
    = Some (Ok s1)
    /\ library s1 = VList []
    /\ (forall (w' : widgets) (room : nat),
          w_reading w' = Reads room -> 2 <= room ->
          main w' s1
          = dispatch w'
              (mkState (library_value [mkBook "Dune" "Frank Herbert" 1965 "SciFi" true])
                 (Some (file_text [mkBook "Dune" "Frank Herbert" 1965 "SciFi" true]))
                 ([] ++ [St_success "Book removed successfully!";
                         St_success "Library loaded from file."])))
    /\ (forall (w' : widgets) (e : exn),
          w_reading w' = ReadFails e -> main w' s1 = Some (Raise e)).
Proof.
  apply (main_reloads_the_file_once_the_store_is_empty
           (mkWidgets "Remove a Book" "" "" 1 "" "Yes" false "dune" true "Title" ""
              false Written (Reads 1000))
           (mkBook "Dune" "Frank Herbert" 1965 "SciFi" true)
           [mkBook "Dune" "Frank Herbert" 1965 "SciFi" true] []).
  - reflexivity.
  - reflexivity.
  - discriminate.
  - reflexivity.
  - repeat constructor.
Defined.

Lemma books_have_columns (bs : list Book) : forallb has_columns (map book_value bs) = true.
Proof. induction bs as [|b bs IH]; [reflexivity|]. cbn [map forallb]. rewrite IH. reflexivity. Qed.

(** The first run of a session whose file was written by
    [save_library] for the books [bs], on the menu "Display All Books",
    the file being read with room for its two levels: the file is
    loaded and the books are displayed, all of them and in the order
    saved, or the warning when there was no book. *)
Theorem main_displays_the_books_saved (w : widgets) (room : nat) (bs : list Book) :
  w_menu w = "Display All Books" ->
  w_reading w = Reads room -> 2 <= room ->
  Forall (fun b => int_fits (year b) = true) bs ->
  main w (initial (Some (file_text bs)))
  = Some (Ok (mkState (library_value bs) (Some (file_text bs))
                [St_success "Library loaded from file.";
                 match bs with
                 | [] => St_warning "Your library is empty."
                 | _ :: _ => St_dataframe (map book_value bs)
                 end])).
Proof.
  intros Hm Hr R F. unfold main, initial. rewrite Hr. cbn [startup library truthy].
  rewrite load_library_of_file_text by assumption. unfold dispatch. rewrite Hm.
  cbn [String.eqb Ascii.eqb Bool.eqb]. unfold display_all_books. cbn [library].
  destruct bs as [|b bs]; [reflexivity|].
  cbn [library_value map truthy].
  change (book_value b :: map book_value bs) with (map book_value (b :: bs)).
  rewrite books_have_columns. reflexivity.
Qed.

Lemma main_displays_the_books_saved_witness :
  main (mkWidgets "Display All Books" "" "" 1 "" "Yes" false "" false "Title" "" false
          Written (Reads 1000))
    (initial (Some (file_text [mkBook "Dune" "Frank Herbert" 1965 "SciFi" true;
                               mkBook "Emma" "Jane Austen" 1815 "Novel" false])))
  = Some (Ok (mkState
                (library_value [mkBook "Dune" "Frank Herbert" 1965 "SciFi" true;
                                mkBook "Emma" "Jane Austen" 1815 "Novel" false])
                (Some (file_text [mkBook "Dune" "Frank Herbert" 1965 "SciFi" true;
                                  mkBook "Emma" "Jane Austen" 1815 "Novel" false]))
                [St_success "Library loaded from file.";
                 St_dataframe
                   (map book_value [mkBook "Dune" "Frank Herbert" 1965 "SciFi" true;
                                    mkBook "Emma" "Jane Austen" 1815 "Novel" false])])).
Proof.
  apply (main_displays_the_books_saved
           (mkWidgets "Display All Books" "" "" 1 "" "Yes" false "" false "Title" ""
              false Written (Reads 1000))
           1000
           [mkBook "Dune" "Frank Herbert" 1965 "SciFi" true;
            mkBook "Emma" "Jane Austen" 1815 "Novel" false]).
  - reflexivity.
  - reflexivity.
  - lia.
  - repeat constructor.
Defined.

(** ** The characters of the file *)

Lemma plain_append (a b : string) : plain (a ++ b)%string = plain a && plain b.
Proof.
  induction a as [|c a IH]; [reflexivity|].
  cbn [String.append plain]. rewrite IH. apply andb_assoc.
Qed.

Lemma plain_encode_char (c : ascii) : plain (Json.encode_char c) = true.
Proof. destruct c as [[] [] [] [] [] [] [] []]; reflexivity. Qed.

Lemma plain_escape (s : string) : plain (Json.escape s) = true.
Proof.
  induction s as [|c s IH]; [reflexivity|].
  cbn [Json.escape]. rewrite plain_append, plain_encode_char, IH. reflexivity.
Qed.

Lemma plain_encode_str (s : string) : plain (Json.encode_str s) = true.
Proof.
  unfold Json.encode_str. cbn [plain]. rewrite plain_append, plain_escape. reflexivity.
Qed.

Lemma plain_spaces (n : nat) : plain (Json.spaces n) = true.
Proof. induction n as [|n IH]; [reflexivity | exact IH]. Qed.

Lemma plain_newline_indent (lvl : nat) : plain (Json.newline_indent lvl) = true.
Proof. unfold Json.newline_indent. cbn [plain]. rewrite plain_spaces. reflexivity. Qed.

Lemma plain_string_of_uint (u : Decimal.uint) : plain (NilEmpty.string_of_uint u) = true.
Proof. induction u; cbn [NilEmpty.string_of_uint plain]; try rewrite IHu; reflexivity. Qed.

Lemma plain_repr_int (n : Z) : plain (repr_int n) = true.
Proof.
  unfold repr_int. destruct (Z.to_int n); cbn [NilEmpty.string_of_int plain];
    rewrite plain_string_of_uint; reflexivity.
Qed.

Lemma plain_dumps_at (v : value) : forall lvl, plain (Json.dumps_at lvl v) = true.
Proof.
  induction v as [| b | n | s | l IH | d IH] using value_induction; intros lvl.
  - reflexivity.
  - destruct b; reflexivity.
  - apply plain_repr_int.
  - apply plain_encode_str.
  - destruct l as [|x xs]; [reflexivity|].
    rewrite dumps_list. inversion IH as [|? ? Hx Hxs]; subst.
    assert (Hi : plain (Json.dump_items (S lvl) xs) = true).
    { clear Hx IH. induction Hxs as [|y ys Hy _ IHys]; [reflexivity|].
      cbn [Json.dump_items].
      change (plain ("," ++ Json.newline_indent (S lvl) ++ Json.dumps_at (S lvl) y
                     ++ Json.dump_items (S lvl) ys)%string = true).
      rewrite !plain_append, plain_newline_indent, Hy, IHys. reflexivity. }
    rewrite !plain_append, !plain_newline_indent, Hx, Hi. reflexivity.
  - destruct d as [|[k x] d]; [reflexivity|].
    rewrite dumps_dict. inversion IH as [|? ? Hx Hd]; subst. cbn [snd] in Hx.
    assert (Hi : plain (Json.dump_members (S lvl) d) = true).
    { clear Hx IH. induction Hd as [|[k' y] d' Hy _ IHd]; [reflexivity|].
      cbn [snd] in Hy.
      change (plain ("," ++ Json.newline_indent (S lvl) ++ Json.encode_str k' ++ ": "
                     ++ Json.dumps_at (S lvl) y ++ Json.dump_members (S lvl) d')%string
              = true).
      rewrite !plain_append, plain_newline_indent, plain_encode_str, Hy, IHd.
      reflexivity. }
    rewrite !plain_append, !plain_newline_indent, plain_encode_str, Hx, Hi. reflexivity.
Qed.

Lemma plain_substring (s : string) : forall n m, plain s = true -> plain (substring n m s) = true.
Proof.
  induction s as [|c s IH]; intros n m H.
  - destruct n, m; reflexivity.
  - cbn [plain] in H. apply andb_true_iff in H. destruct H as [Hc Hs].
    destruct n as [|n]; cbn [substring].
    + destruct m as [|m]; [reflexivity|]. cbn [plain]. rewrite Hc, (IH 0%nat m Hs).
      reflexivity.
    + apply IH, Hs.
Qed.

(** Whatever the store holds, what [save_library] puts in the file, to
    the end or up to a write that fails, is made of printable ASCII
    characters and line feeds only: every other character of a title,
    an author, a genre or a key is written as an escape. *)
Theorem save_library_writes_printable_ascii (io : disk) (s : state) (text : string) :
  (forall why, io <> OpenFails why) ->
  library_file (save_library io s) = Some text ->
  plain text = true.
Proof.
  intros Hio. destruct io as [|why|why n]; cbn [save_library show set_file library_file].
  - intros H. injection H as <-. apply plain_dumps_at.
  - destruct (Hio why eq_refl).
  - intros H. injection H as <-. apply plain_substring, plain_dumps_at.
Qed.

Lemma save_library_writes_printable_ascii_witness :
  plain
    (Json.dumps
       (library_value [mkBook (String "233"%char "mile") "Zola" 1885 "Novel" true]))
  = true.
Proof.
  apply (save_library_writes_printable_ascii Written
           (mkState (library_value [mkBook (String "233"%char "mile") "Zola" 1885
                                      "Novel" true]) None [])).
  - discriminate.
  - reflexivity.
Defined.

(** ** The operations on a small library *)

(** After "Dune" is added, a search of the titles for "dune" shows that
    book alone, with its read flag set. *)
Example add_then_search_finds_the_book :
  (s1 <- add_book "Dune" "Herbert" 1965 "SciFi" "Yes" true
           (mkState (library_value [mkBook "Emma" "Jane Austen" 1815 "Novel" false])
              None []) ;;
   search_book "Title" "dune" true s1)
  = Ok (mkState
          (library_value [mkBook "Emma" "Jane Austen" 1815 "Novel" false;
                          mkBook "Dune" "Herbert" 1965 "SciFi" true])
          None
          [St_success "Book added successfully!";
           St_write "**Matching Books:**";
           St_dataframe [book_value (mkBook "Dune" "Herbert" 1965 "SciFi" true)]]).
Proof. reflexivity. Qed.

(** Of two books titled "Foo", the first goes and the second stays. *)
Example remove_keeps_the_second_of_two :
  remove_book "foo" true
    (mkState (library_value [mkBook "Foo" "A" 2001 "G" true;
                             mkBook "Foo" "B" 2002 "H" false]) None [])
  = Ok (mkState (library_value [mkBook "Foo" "B" 2002 "H" false]) None
          [St_success "Book removed successfully!"]).
Proof. reflexivity. Qed.

(** One book read out of three: 33.33333333333333 per cent, the binary64
    number next below a third of a hundred. *)
Example statistics_of_three_books :
  statistics (library_value [mkBook "A" "a" 1 "g" true;
                             mkBook "B" "b" 2 "g" false;
                             mkBook "C" "c" 3 "g" false])
  = Ok (3%Z, 1%Z, NumFloat 0x1.0aaaaaaaaaaaap+5%float).
Proof. vm_compute. reflexivity. Qed.

(** A file is loaded whatever its layout: here on one line, the fields
    in another order. *)
Example load_library_reads_any_layout :
  load_library (Reads 2)
    (initial
       (Some ("[{" ++ quoted "read" ++ ":true," ++ quoted "title" ++ ": "
              ++ quoted "Dune" ++ " , " ++ quoted "year" ++ ":1965}]")%string))
  = Some (Ok (mkState
                (VList [VDict [("read", VBool true); ("title", VStr "Dune");
                               ("year", VInt 1965)]])
                (Some ("[{" ++ quoted "read" ++ ":true," ++ quoted "title" ++ ": "
                       ++ quoted "Dune" ++ " , " ++ quoted "year" ++ ":1965}]")%string)
                [St_success "Library loaded from file."])).
Proof. reflexivity. Qed.

(** The same file, the interpreter having room for one level only: the
    brace of the record raises. *)
Example load_library_without_room :
  load_library (Reads 1)
    (initial
       (Some ("[{" ++ quoted "read" ++ ":true," ++ quoted "title" ++ ": "
              ++ quoted "Dune" ++ " , " ++ quoted "year" ++ ":1965}]")%string))
  = Some (Raise RecursionError).
Proof. reflexivity. Qed.

(** A search whose matches hold no genre and no read flag: line 92
    raises [KeyError]. *)
Example search_book_without_the_columns :
  search_book "Title" "dune" true
    (mkState (VList [VDict [("title", VStr "Dune"); ("author", VStr "Frank Herbert");
                            ("year", VInt 1965)]]) None [])
  = Raise KeyError.
Proof. reflexivity. Qed.
